(** * Log_Parser.py: a shallow embedding and its verified properties

    The program reads a lookup table (CSV), scans a flow log line by line,
    tags every record through the table and writes two count tables.

    Modelling decisions, all visible in the definitions below:
    - a Python [str] is a [string]; a character is a code point below 256;
    - the Python value returned by [get_protocol_name] is a [pyval]
      ([PyNone] is Python's [None]: the function can fall off its end);
    - [dict]/[defaultdict] objects whose iteration order reaches the output
      are association lists in insertion order; the lookup table, which is
      only read with [.get] and [len], is a [gmap];
    - files, the process log and exceptions are threaded through a small
      state-and-exception monad [M];
    - [vars(socket)] and [csv.reader] belong to the Python library, not to
      the program: both are parameters of the functions that use them;
    - a file of the model is a regular file that holds decoded text and can
      be opened: a path that exists but cannot be read or written (a
      directory, bytes that are no text, a missing parent directory) is
      outside the model, and what is proved of an existing file is proved
      of a file of this kind;
    - the interpreter's limit on the length of integer literals is not
      modelled. *)

From Stdlib Require Import ZArith NArith Ascii String List Sorted Permutation Lia.
From stdpp Require Import gmap strings list sorting pretty.

Local Open Scope Z_scope.

(** ** Python strings *)

Module Py.

Definition ord (c : ascii) : N := N_of_ascii c.

Definition between (lo hi n : N) : bool := ((lo <=? n) && (n <=? hi))%N.

(** [str.isspace] on one character, as [str.split()] and [str.strip()]
    use it: TAB..CR, FS..US, SPACE, NEL, NBSP. *)
Definition isspace (c : ascii) : bool :=
  between 9 13 (ord c) || between 28 32 (ord c)
  || (ord c =? 133)%N || (ord c =? 160)%N.

(** The white space [int()] skips around a literal: TAB..CR, SPACE, and
    the non-ASCII spaces NEL and NBSP (FS..US are not skipped). *)
Definition int_space (c : ascii) : bool :=
  between 9 13 (ord c) || (ord c =? 32)%N
  || (ord c =? 133)%N || (ord c =? 160)%N.

Definition isdigit (c : ascii) : bool := between 48 57 (ord c).

Definition is_empty (s : string) : bool :=
  match s with EmptyString => true | String _ _ => false end.

Fixpoint lstrip_by (sp : ascii → bool) (s : string) : string :=
  match s with
  | EmptyString => EmptyString
  | String c s' => if sp c then lstrip_by sp s' else s
  end.

Fixpoint rstrip_by (sp : ascii → bool) (s : string) : string :=
  match s with
  | EmptyString => EmptyString
  | String c s' =>
      let r := rstrip_by sp s' in
      if sp c && is_empty r then EmptyString else String c r
  end.

(** [s.strip()] *)
Definition strip (s : string) : string := rstrip_by isspace (lstrip_by isspace s).

Definition lower_char (c : ascii) : ascii :=
  let n := ord c in
  if between 65 90 n || (between 192 222 n && negb (n =? 215)%N)
  then ascii_of_N (n + 32) else c.

(** [s.lower()] *)
Fixpoint lower (s : string) : string :=
  match s with
  | EmptyString => EmptyString
  | String c s' => String (lower_char c) (lower s')
  end.

Definition snoc (s : string) (c : ascii) : string := s +:+ String c EmptyString.

(** [s.split()]: the maximal runs of non-space characters. [cur] is the
    field being read. *)
Fixpoint split_go (s cur : string) : list string :=
  match s with
  | EmptyString => if is_empty cur then [] else [cur]
  | String c s' =>
      if isspace c
      then (if is_empty cur then split_go s' EmptyString
            else cur :: split_go s' EmptyString)
      else split_go s' (snoc cur c)
  end.

Definition split (s : string) : list string := split_go s EmptyString.

(** [s.split(sep)] for a one-character separator: never empty. *)
Fixpoint split_on_go (sep : ascii) (s cur : string) : list string :=
  match s with
  | EmptyString => [cur]
  | String c s' =>
      if Ascii.eqb c sep then cur :: split_on_go sep s' EmptyString
      else split_on_go sep s' (snoc cur c)
  end.

Definition split_on (sep : ascii) (s : string) : list string :=
  split_on_go sep s EmptyString.

(** [s.startswith(p)] *)
Definition startswith (s p : string) : bool := String.prefix p s.

(** Decimal digits with single underscores between digits; [seen] tells
    whether the previous character was a digit. *)
Fixpoint digits_value (s : string) (acc : Z) (seen : bool) : option Z :=
  match s with
  | EmptyString => if seen then Some acc else None
  | String c s' =>
      if isdigit c
      then digits_value s' (10 * acc + (Z.of_N (ord c) - 48)) true
      else if Ascii.eqb c "_" && seen then digits_value s' acc false
      else None
  end.

(** [int(s)]: [None] stands for the [ValueError] of an invalid literal. *)
Definition int (s : string) : option Z :=
  match rstrip_by int_space (lstrip_by int_space s) with
  | String "+" d => digits_value d 0 false
  | String "-" d => Z.opp <$> digits_value d 0 false
  | d => digits_value d 0 false
  end.

(** The line terminator written by the report. *)
Definition NL : string := String "010" EmptyString.

(** The lines a text file opened with [mode='r'] yields when iterated:
    universal newlines, so LF, CR and CR LF all end a line. The
    terminator is left out: the program only ever calls [split()] on a
    line, which discards it. *)
Fixpoint file_lines_go (s cur : string) : list string :=
  match s with
  | EmptyString => if is_empty cur then [] else [cur]
  | String c s' =>
      if Ascii.eqb c "010" then cur :: file_lines_go s' EmptyString
      else if Ascii.eqb c "013" then
        match s' with
        | String "010" s'' => cur :: file_lines_go s'' EmptyString
        | _ => cur :: file_lines_go s' EmptyString
        end
      else file_lines_go s' (snoc cur c)
  end.

Definition file_lines (s : string) : list string := file_lines_go s EmptyString.

(** What the program meets in [vars(socket)]: integers (all [IPPROTO_]
    constants are), and objects that equal no integer. *)
Inductive pyobj := PyInt (n : Z) | PyOther.

(** [o == n] for an integer [n]. *)
Definition eq_int (o : pyobj) (n : Z) : bool :=
  match o with PyInt m => (m =? n) | PyOther => false end.

(** A value that is a [str] or [None]. *)
Inductive pyval := PyStr (s : string) | PyNone.

(** [str(v)], as an f-string renders it. *)
Definition str (v : pyval) : string :=
  match v with PyStr s => s | PyNone => "None" end.

End Py.

Export Py(pyobj(..), pyval(..)).

Global Instance pyval_eq_dec : EqDecision pyval.
Proof. solve_decision. Defined.

Global Instance pyval_countable : Countable pyval.
Proof.
  refine (inj_countable'
    (λ v, match v with PyStr s => Some s | PyNone => None end)
    (λ o, match o with Some s => PyStr s | None => PyNone end) _).
  by intros [].
Defined.

(** ** Exceptions, the process log and the file system *)

(** The exception classes the program names or can meet. *)
Inductive exn_class :=
  FileNotFoundError | OSError | ValueError | IndexError | Exception.

Global Instance exn_class_eq_dec : EqDecision exn_class.
Proof. solve_decision. Defined.

(** [issubclass c d], for the classes above. *)
Definition subclass (c d : exn_class) : bool :=
  match d with
  | Exception => true
  | OSError => bool_decide (c = OSError) || bool_decide (c = FileNotFoundError)
  | _ => bool_decide (c = d)
  end.

Record exn := Exn { exn_cls : exn_class; exn_msg : string }.

(** [isinstance(e, c)], which an [except c] clause tests. *)
Definition isinstance (e : exn) (c : exn_class) : bool := subclass (exn_cls e) c.

Inductive level := ERROR | WARNING | INFO.

(** The world a run acts on: the text files by path, and the records
    handed to [logging] (the process log, without its time stamps). *)
Record world := World { files : gmap string string; log : list (level * string) }.

Inductive result (A : Type) := Ok (a : A) | Raise (e : exn).
Arguments Ok {A} a.
Arguments Raise {A} e.

Definition M (A : Type) : Type := world → result A * world.

Global Instance M_ret : MRet M := λ A a w, (Ok a, w).

Global Instance M_bind : MBind M := λ A B f m w,
  match m w with
  | (Ok a, w') => f a w'
  | (Raise e, w') => (Raise e, w')
  end.

Definition raise {A} (e : exn) : M A := λ w, (Raise e, w).

(** [try: body  except ...: handler]. [handler e] is [None] when no
    [except] clause matches [e], which then propagates. *)
Definition try_except {A} (body : M A) (handler : exn → option (M A)) : M A := λ w,
  match body w with
  | (Ok a, w') => (Ok a, w')
  | (Raise e, w') =>
      match handler e with
      | Some h => h w'
      | None => (Raise e, w')
      end
  end.

(** [for x in l: s = body(x, s)] *)
Fixpoint for_each {A S} (l : list A) (body : A → S → M S) (s : S) : M S :=
  match l with
  | [] => mret s
  | x :: l' => s' ← body x s; for_each l' body s'
  end.

(** [[f(x) for x in l]], left to right. *)
Fixpoint map_M {A B} (f : A → M B) (l : list A) : M (list B) :=
  match l with
  | [] => mret []
  | x :: l' => y ← f x; ys ← map_M f l'; mret (y :: ys)
  end.

(** [logging.error], [logging.warning], [logging.info] *)
Definition logging (l : level) (msg : string) : M unit := λ w,
  (Ok tt, World (files w) (log w ++ [(l, msg)])).

(** [path.exists(p)] *)
Definition path_exists (p : string) : M bool := λ w,
  (Ok (bool_decide (is_Some (files w !! p))), w).

(** The text of a file opened with [open(p, mode='r')] and read through.
    The files of the model hold decoded text and can be opened; the only
    failure modelled is the missing file. *)
Definition open_r (p : string) : M string := λ w,
  match files w !! p with
  | Some text => (Ok text, w)
  | None => (Raise (Exn FileNotFoundError
               ("[Errno 2] No such file or directory: '" +:+ p +:+ "'")), w)
  end.

(** [open(p, mode='w')]: the file is created or truncated. The paths of the
    model can be opened for writing. *)
Definition open_w (p : string) : M unit := λ w,
  (Ok tt, World (<[p := ""]> (files w)) (log w)).

(** [file.write(s)] on the file opened at [p]. What is written before an
    exception stays in the file: leaving the [with] block closes it. *)
Definition file_write (p s : string) : M unit := λ w,
  (Ok tt, World (<[p := default "" (files w !! p) +:+ s]> (files w)) (log w)).

(** The [ValueError] of [int(s)]; the text is quoted without escapes. *)
Definition int_error (s : string) : exn :=
  Exn ValueError ("invalid literal for int() with base 10: '" +:+ s +:+ "'").

(** [int(s)] as a statement that can raise. *)
Definition int_ (s : string) : M Z :=
  match Py.int s with
  | Some n => mret n
  | None => raise (int_error s)
  end.

(** [row[i]] *)
Definition item (row : list string) (i : nat) : M string :=
  match row !! i with
  | Some x => mret x
  | None => raise (Exn IndexError "list index out of range")
  end.

(** ** Dictionaries in insertion order *)

(** [d[k]] of a [defaultdict(int)], read without inserting. *)
Fixpoint dict_count `{EqDecision K} (k : K) (d : list (K * Z)) : Z :=
  match d with
  | [] => 0
  | (k', n) :: d' => if decide (k = k') then n else dict_count k d'
  end.

(** [d[k] += 1] on a [defaultdict(int)]: a key keeps its place, a new key
    goes last. *)
Fixpoint dict_incr `{EqDecision K} (k : K) (d : list (K * Z)) : list (K * Z) :=
  match d with
  | [] => [(k, 1)]
  | (k', n) :: d' =>
      if decide (k = k') then (k', n + 1) :: d' else (k', n) :: dict_incr k d'
  end.

(** ** [sorted] *)

(** [x] goes before the first element that is not smaller than it, so
    equal keys keep their order. *)
Fixpoint insert_sorted {A} (lt : A → A → bool) (x : A) (l : list A) : list A :=
  match l with
  | [] => [x]
  | y :: l' => if lt y x then y :: insert_sorted lt x l' else x :: l
  end.

(** [sorted(l, key=...)] on the list of (key, element) pairs: the keys
    are computed first, then the elements are sorted stably by key. *)
Definition sorted_by {K A} (lt : K → K → bool) (keyed : list (K * A)) : list A :=
  (foldr (insert_sorted (λ a b, lt a.1 b.1)) [] keyed).*2.

(** [<] on pairs of integers, as Python compares tuples. *)
Definition pair_ltb (a b : Z * Z) : bool :=
  (a.1 <? b.1) || ((a.1 =? b.1) && (a.2 <? b.2)).

(** ** The program *)

Abbreviation lookup_table_t := (gmap (string * pyval) string).
Abbreviation tag_counts_t := (list (string * Z)).
Abbreviation port_protocol_counts_t := (list ((string * pyval) * Z)).

(** The test of line 31: [not row or len(row) < 3 or all(not item.strip()
    for item in row)]. *)
Definition row_skipped (row : list string) : bool :=
  bool_decide (row = [])
  || bool_decide (length row < 3)%nat
  || forallb (λ item, Py.is_empty (Py.strip item)) row.

(** The body of the loop over the rows (lines 29 to 37). *)
Definition load_row (row : list string) (lookup_table : lookup_table_t)
    : M lookup_table_t :=
  if row_skipped row then mret lookup_table
  else
    c0 ← item row 0; let dstport := Py.strip c0 in
    c1 ← item row 1; let protocol := Py.lower (Py.strip c1) in
    c2 ← item row 2; let tag := Py.strip c2 in
    mret (<[(dstport, PyStr protocol) := tag]> lookup_table).

Definition load_lookup_table (csv_reader : string → list (list string))
    (lookup_file : string) : M lookup_table_t :=
  ex ← path_exists lookup_file;
  if negb ex then
    logging ERROR ("Lookup table file '" +:+ lookup_file +:+ "' not found.");;
    raise (Exn FileNotFoundError
             ("Lookup table file '" +:+ lookup_file +:+ "' not found."))
  else
    file ← open_r lookup_file;
    lookup_table ←
      match csv_reader file with
      | [] | [] :: _ =>
          logging ERROR ("Lookup table file '" +:+ lookup_file
                         +:+ "' is empty or has an invalid format.");;
          raise (Exn ValueError ("Lookup table file '" +:+ lookup_file
                                 +:+ "' is empty or has an invalid format."))
      | _header :: rows => for_each rows load_row ∅
      end;
    logging INFO ("Loaded " +:+ pretty (size lookup_table)
                  +:+ " mappings from the lookup table.");;
    mret lookup_table.

(** The loop of lines 87 to 89; [mret PyNone] is the function falling off
    its end when no item matches. *)
Fixpoint scan_protocols (items : list (string * pyobj)) (protocol_number : string)
    : M pyval :=
  match items with
  | [] => mret PyNone
  | (name, number) :: rest =>
      if Py.startswith name "IPPROTO_" then
        n ← int_ protocol_number;
        if Py.eq_int number n
        then mret (PyStr (List.last (Py.split_on "_" (Py.lower name)) ""))
        else scan_protocols rest protocol_number
      else scan_protocols rest protocol_number
  end.

Definition get_protocol_name (socket_vars : list (string * pyobj))
    (protocol_number : string) : M pyval :=
  try_except (scan_protocols socket_vars protocol_number)
    (λ e, if isinstance e OSError || isinstance e ValueError
          then Some (logging WARNING ("Unknown protocol number: " +:+ protocol_number);;
                     mret (PyStr "unknown"))
          else None).

(** The [ValueError] of unpacking more than 14 fields into 14 names. *)
Definition too_many_values : exn :=
  Exn ValueError "too many values to unpack (expected 14)".

(** The body of the loop over the lines (lines 56 to 75). *)
Definition process_line (socket_vars : list (string * pyobj))
    (lookup_table : lookup_table_t) (line : string)
    (counts : tag_counts_t * port_protocol_counts_t)
    : M (tag_counts_t * port_protocol_counts_t) :=
  let fields := Py.split line in
  if bool_decide (length fields < 14)%nat then mret counts
  else
    match fields with
    | [version; account_id; interface_id; srcaddr; dstaddr;
       srcport; dstport; protocol_number; packets; bytes_transferred;
       start_time; end_time; action; log_status] =>
        protocol_name ← get_protocol_name socket_vars protocol_number;
        let tag := default "Untagged" (lookup_table !! (dstport, protocol_name)) in
        mret (dict_incr tag counts.1, dict_incr (dstport, protocol_name) counts.2)
    | _ => raise too_many_values
    end.

Definition process_flow_logs (socket_vars : list (string * pyobj))
    (flow_log_file : string) (lookup_table : lookup_table_t)
    : M (tag_counts_t * port_protocol_counts_t) :=
  ex ← path_exists flow_log_file;
  if negb ex then
    logging ERROR ("Flow log file '" +:+ flow_log_file +:+ "' not found.");;
    raise (Exn FileNotFoundError
             ("Flow log file '" +:+ flow_log_file +:+ "' not found."))
  else
    file ← open_r flow_log_file;
    counts ← for_each (Py.file_lines file) (process_line socket_vars lookup_table) ([], []);
    logging INFO "Finished processing flow logs.";;
    mret counts.

Definition tag_row (x : string * Z) : string :=
  x.1 +:+ "," +:+ pretty x.2 +:+ Py.NL.

Definition port_protocol_row (x : (string * pyval) * Z) : string :=
  x.1.1 +:+ "," +:+ Py.str x.1.2 +:+ "," +:+ pretty x.2 +:+ Py.NL.

(** The key of line 109: [(x[1], int(x[0][0]))]. *)
Definition port_protocol_key (x : (string * pyval) * Z) : M (Z * Z) :=
  n ← int_ x.1.1; mret (x.2, n).

Definition write_output (tag_counts : tag_counts_t)
    (port_protocol_counts : port_protocol_counts_t) (output_file : string) : M unit :=
  try_except
    (open_w output_file;;
     file_write output_file ("Tag Counts:" +:+ Py.NL);;
     file_write output_file ("Tag,Count" +:+ Py.NL);;
     let sorted_counts := sorted_by Z.ltb (map (λ x, (x.2, x)) tag_counts) in
     for_each sorted_counts (λ x _, file_write output_file (tag_row x)) tt;;
     file_write output_file (Py.NL +:+ "Port/Protocol Combination Counts:" +:+ Py.NL);;
     file_write output_file ("Port,Protocol,Count" +:+ Py.NL);;
     keyed ← map_M (λ x, k ← port_protocol_key x; mret (k, x)) port_protocol_counts;
     let sorted_protocols := sorted_by pair_ltb keyed in
     for_each sorted_protocols (λ x _, file_write output_file (port_protocol_row x)) tt;;
     logging INFO ("Output successfully written to '" +:+ output_file +:+ "'."))
    (λ e, if isinstance e Exception
          then Some (logging ERROR ("Error writing to output file '" +:+ output_file
                                    +:+ "': " +:+ exn_msg e);;
                     raise e)
          else None).

(** The three [except] clauses of the driver, in order. *)
Definition driver_handler (e : exn) : option (M unit) :=
  if isinstance e FileNotFoundError then Some (logging ERROR (exn_msg e))
  else if isinstance e ValueError then Some (logging ERROR (exn_msg e))
  else if isinstance e Exception
       then Some (logging ERROR ("An unexpected error occurred: " +:+ exn_msg e))
  else None.

(** The driver over any three stages: the names [load_lookup_table],
    [process_flow_logs] and [write_output] are looked up when called. *)
Definition log_parser_with
    (load : string → M lookup_table_t)
    (process : string → lookup_table_t → M (tag_counts_t * port_protocol_counts_t))
    (write : tag_counts_t → port_protocol_counts_t → string → M unit)
    (lookup_file flow_log_file output_file : string) : M unit :=
  try_except
    (lookup_table ← load lookup_file;
     counts ← process flow_log_file lookup_table;
     write counts.1 counts.2 output_file)
    driver_handler.

Definition log_parser (socket_vars : list (string * pyobj))
    (csv_reader : string → list (list string))
    (lookup_file flow_log_file output_file : string) : M unit :=
  log_parser_with (load_lookup_table csv_reader) (process_flow_logs socket_vars)
    write_output lookup_file flow_log_file output_file.

(** Line 142: the call the module makes when it is run. *)
Definition main (socket_vars : list (string * pyobj))
    (csv_reader : string → list (list string)) : M unit :=
  log_parser socket_vars csv_reader "lookup_table.csv" "flow_log.log" "output.txt".

(** ** Specification vocabulary *)

(** The name line 89 computes from the first [IPPROTO_] item whose number
    is [n], and [PyNone] when there is none. *)
Fixpoint protocol_of (items : list (string * pyobj)) (n : Z) : pyval :=
  match items with
  | [] => PyNone
  | (name, number) :: rest =>
      if Py.startswith name "IPPROTO_" && Py.eq_int number n
      then PyStr (List.last (Py.split_on "_" (Py.lower name)) "")
      else protocol_of rest n
  end.

Definition has_protocols (items : list (string * pyobj)) : bool :=
  existsb (λ it, Py.startswith it.1 "IPPROTO_") items.

(** A column is blank when stripping it leaves nothing. *)
Definition blank (item : string) : bool := Py.is_empty (Py.strip item).

(** The spec's notion of a valid row: at least 3 non-blank columns. *)
Definition non_blank_columns (row : list string) : nat :=
  length (filter (λ item, blank item = false) row).

Definition spec_valid_row (row : list string) : bool :=
  bool_decide (3 ≤ non_blank_columns row)%nat.

(** The entry the loop body stores for a row, if it stores one. *)
Definition row_entry (row : list string) : option ((string * pyval) * string) :=
  match row with
  | c0 :: c1 :: c2 :: _ =>
      if forallb blank row then None
      else Some ((Py.strip c0, PyStr (Py.lower (Py.strip c1))), Py.strip c2)
  | _ => None
  end.

Fixpoint concat_str (l : list string) : string :=
  match l with
  | [] => ""
  | s :: l' => s +:+ concat_str l'
  end.

(** The two section headers of the report (lines 101-102 and 107-108). *)
Definition tag_header : string :=
  "Tag Counts:" +:+ Py.NL +:+ "Tag,Count" +:+ Py.NL.

Definition port_protocol_header : string :=
  Py.NL +:+ "Port/Protocol Combination Counts:" +:+ Py.NL
  +:+ "Port,Protocol,Count" +:+ Py.NL.

(** Order of the report rows: by count, and by (count, port number). *)
Definition count_le {K} (x y : K * Z) : Prop := x.2 ≤ y.2.

Definition count_port_le (x y : (string * pyval) * Z) : Prop :=
  ∃ px py, Py.int x.1.1 = Some px ∧ Py.int y.1.1 = Some py
           ∧ (x.2 < y.2 ∨ (x.2 = y.2 ∧ px ≤ py)).

(** ** A concrete host, for examples *)

(** The [IPPROTO_] constants of [vars(socket)] as CPython 3.11 lists them on
    Linux, after some of the names that come before them. *)
Definition linux_socket_vars : list (string * pyobj) :=
  [("__name__", PyOther); ("gethostbyname", PyOther); ("AF_INET", PyInt 2);
   ("IPPROTO_IP", PyInt 0); ("IPPROTO_HOPOPTS", PyInt 0);
   ("IPPROTO_ICMP", PyInt 1); ("IPPROTO_IGMP", PyInt 2);
   ("IPPROTO_IPV6", PyInt 41); ("IPPROTO_IPIP", PyInt 4);
   ("IPPROTO_TCP", PyInt 6); ("IPPROTO_EGP", PyInt 8);
   ("IPPROTO_PUP", PyInt 12); ("IPPROTO_UDP", PyInt 17);
   ("IPPROTO_UDPLITE", PyInt 136); ("IPPROTO_IDP", PyInt 22);
   ("IPPROTO_TP", PyInt 29); ("IPPROTO_ROUTING", PyInt 43);
   ("IPPROTO_FRAGMENT", PyInt 44); ("IPPROTO_RSVP", PyInt 46);
   ("IPPROTO_GRE", PyInt 47); ("IPPROTO_ESP", PyInt 50);
   ("IPPROTO_AH", PyInt 51); ("IPPROTO_ICMPV6", PyInt 58);
   ("IPPROTO_NONE", PyInt 59); ("IPPROTO_DSTOPTS", PyInt 60);
   ("IPPROTO_PIM", PyInt 103); ("IPPROTO_SCTP", PyInt 132);
   ("IPPROTO_MPTCP", PyInt 262); ("IPPROTO_RAW", PyInt 255)].

(** What [csv.reader] yields on text without quote characters: one row per
    line, split at the commas; an empty line is the empty row. *)
Definition plain_csv_reader (text : string) : list (list string) :=
  map (λ line, if Py.is_empty line then [] else Py.split_on "," line)
      (Py.file_lines text).

Definition lines_text (lines : list string) : string :=
  concat_str (map (λ l, l +:+ Py.NL) lines).

Definition sample_lookup : string :=
  lines_text ["dstport,protocol,tag"; "80,tcp,web"; "25, TCP ,mail"; "80,TCP,www"].

Definition sample_flow : string :=
  lines_text
    ["2 123456789012 eni-0a1b2c3d 10.0.1.201 198.51.100.2 443 80 6 25 20000 1620140761 1620140821 ACCEPT OK";
     "2 123456789012 eni-0a1b2c3d 10.0.1.201 198.51.100.2 443 9999 17 25 20000 1620140761 1620140821 ACCEPT OK";
     "2 123456789012 eni-0a1b2c3d 10.0.1.201 198.51.100.2 443 80 6 25 20000 1620140761 1620140821 REJECT OK";
     "short line"].

Definition sample_world : world :=
  World {[ "lookup_table.csv" := sample_lookup; "flow_log.log" := sample_flow ]} [].

(** The table the loop of lines 29 to 37 builds from the data rows. *)
Definition store_row (lookup_table : lookup_table_t) (row : list string)
    : lookup_table_t :=
  match row_entry row with
  | Some (key, tag) => <[key := tag]> lookup_table
  | None => lookup_table
  end.

Definition lookup_of_rows (rows : list (list string)) : lookup_table_t :=
  foldl store_row ∅ rows.

(** A lookup table whose only data row has three columns, one of them blank. *)
Definition blank_protocol_world : world :=
  World {[ "lookup_table.csv" := lines_text ["dstport,protocol,tag"; "80,,web"] ]} [].

(** A flow log whose only line has 15 fields. *)
Definition long_line_world : world :=
  World {[ "flow_log.log" := lines_text
     ["2 123456789012 eni-0a1b2c3d 10.0.1.201 198.51.100.2 443 80 6 25 20000 1620140761 1620140821 ACCEPT OK extra"] ]} [].

(** The keys of line 109 for all the items, or the first port that is no
    integer literal. *)
Fixpoint keyed_items (l : port_protocol_counts_t)
    : list ((Z * Z) * ((string * pyval) * Z)) + string :=
  match l with
  | [] => inl []
  | x :: l' =>
      match Py.int x.1.1 with
      | None => inr x.1.1
      | Some n =>
          match keyed_items l' with
          | inl ks => inl (((x.2, n), x) :: ks)
          | inr p => inr p
          end
      end
  end.

(** What the report holds when line 109 is reached: the tag section and
    the two header lines of the second section. *)
Definition report_prefix (tag_counts : tag_counts_t) : string :=
  tag_header
  +:+ concat_str (tag_row <$> sorted_by Z.ltb (map (λ x, (x.2, x)) tag_counts))
  +:+ port_protocol_header.

(** A row the loader keeps: at least 3 columns, not all of them blank. *)
Definition kept_row (row : list string) : Prop :=
  (3 ≤ length row)%nat ∧ Exists (λ item, blank item = false) row.

Global Instance kept_row_dec row : Decision (kept_row row).
Proof. unfold kept_row. apply _. Defined.

(** [x] is not after [y] in the order [sorted] builds: Python's sort only
    ever asks whether [y < x]. *)
Definition not_after {A} (lt : A → A → bool) (x y : A) : Prop := lt y x = false.

(** The two messages of the loader. *)
Definition lookup_not_found (lf : string) : string :=
  "Lookup table file '" +:+ lf +:+ "' not found.".

Definition lookup_bad_format (lf : string) : string :=
  "Lookup table file '" +:+ lf +:+ "' is empty or has an invalid format.".

(** A computation whose result does not depend on the world it starts in
    and which leaves the files as they are. *)
Definition oblivious {A} (m : M A) : Prop :=
  ∃ r, ∀ w, (m w).1 = r ∧ files (m w).2 = files w.

(** A second world with the same two input files as [sample_world], a
    stale report, another file and an earlier process log. *)
Definition sample_world_2 : world :=
  World {[ "lookup_table.csv" := sample_lookup; "flow_log.log" := sample_flow;
           "output.txt" := "stale"; "notes.txt" := "unrelated" ]}
        [(INFO, "Finished processing flow logs.")].

(** ** Vocabulary for the whole-file properties *)

(** The value [get_protocol_name] returns for [pn]. *)
Definition resolve (sv : list (string * pyobj)) (pn : string) : pyval :=
  match Py.int pn with
  | Some n => protocol_of sv n
  | None => if has_protocols sv then PyStr "unknown" else PyNone
  end.

(** The (destination port, protocol name) pair a line is counted under;
    [None] for a line that is not counted. *)
Definition line_key (sv : list (string * pyobj)) (line : string)
    : option (string * pyval) :=
  let fields := Py.split line in
  if decide (length fields = 14%nat) then
    match fields !! 6%nat, fields !! 7%nat with
    | Some dstport, Some protocol_number => Some (dstport, resolve sv protocol_number)
    | _, _ => None
    end
  else None.

(** The tag a line is counted under. *)
Definition line_tag (sv : list (string * pyobj)) (lookup_table : lookup_table_t)
    (line : string) : option string :=
  (λ key, default "Untagged" (lookup_table !! key)) <$> line_key sv line.

(** What one line does to the two count maps, when it does not raise. *)
Definition count_line (sv : list (string * pyobj)) (lookup_table : lookup_table_t)
    (counts : tag_counts_t * port_protocol_counts_t) (line : string)
    : tag_counts_t * port_protocol_counts_t :=
  match line_key sv line with
  | Some key => (dict_incr (default "Untagged" (lookup_table !! key)) counts.1,
                 dict_incr key counts.2)
  | None => counts
  end.

(** The number of lines counted under a key, and under a tag. *)
Definition lines_with_key (sv : list (string * pyobj)) (key : string * pyval)
    (lines : list string) : Z :=
  Z.of_nat (length (filter (λ line, line_key sv line = Some key) lines)).

Definition lines_with_tag (sv : list (string * pyobj)) (lookup_table : lookup_table_t)
    (tag : string) (lines : list string) : Z :=
  Z.of_nat (length (filter (λ line, line_tag sv lookup_table line = Some tag) lines)).

(** A lookup file that starts with a data row. *)
Definition headerless_world : world :=
  World {[ "lookup_table.csv" := lines_text ["80,tcp,web"; "25,tcp,mail"] ]} [].

(** The sum of the counts of a count map. *)
Definition dict_total {K} (d : list (K * Z)) : Z := foldr (λ x acc, x.2 + acc) 0 d.

(** The number of lines that are counted: those with exactly 14 fields. *)
Definition counted_lines (lines : list string) : Z :=
  Z.of_nat (length (filter (λ line, length (Py.split line) = 14%nat) lines)).

(** A stored entry in normal form: stripped port and tag, and a protocol
    that is a lowercase [str]. *)
Definition normal_entry (key : string * pyval) (tag : string) : Prop :=
  Py.strip key.1 = key.1 ∧ Py.strip tag = tag
  ∧ ∃ protocol, key.2 = PyStr protocol ∧ Py.lower protocol = protocol.

(** The sort key of line 109, made total: 0 stands in for a port that is no
    integer literal, which no item of a sorted list has. *)
Definition total_key (x : (string * pyval) * Z) : Z * Z :=
  (x.2, default 0 (Py.int x.1.1)).

(** What the driver does with an exception of its [try] block. *)
Definition handled (e : exn) (w : world) : result unit * world :=
  match driver_handler e with
  | Some h => h w
  | None => (Raise e, w)
  end.

(** The lookup file exists and its first row is not empty. *)
Definition lookup_loadable (csv_reader : string → list (list string))
    (lf : string) (w : world) : Prop :=
  ∃ text h header rows,
    files w !! lf = Some text ∧ csv_reader text = (h :: header) :: rows.

(** The flow log exists and none of its lines has more than 14 fields. *)
Definition flow_log_readable (ff : string) (w : world) : Prop :=
  ∃ text, files w !! ff = Some text
          ∧ Forall (λ line, length (Py.split line) ≤ 14)%nat (Py.file_lines text).

(** A world whose lookup file is empty. *)
Definition empty_lookup_world : world :=
  World {[ "empty.csv" := ""; "flow_log.log" := sample_flow ]} [].

(** A flow log with a record without data: its ports are ["-"]. *)
Definition no_data_flow : string :=
  lines_text
    ["2 123456789012 eni-0a1b2c3d 10.0.1.201 198.51.100.2 443 80 6 25 20000 1620140761 1620140821 ACCEPT OK";
     "2 123456789012 eni-0a1b2c3d - - - - - - - 1620140761 1620140821 - NODATA"].

Definition no_data_world : world :=
  World {[ "lookup_table.csv" := sample_lookup; "flow_log.log" := no_data_flow ]} [].

(** A flow log none of whose lines has 14 fields. *)
Definition short_lines_world : world :=
  World {[ "lookup_table.csv" := sample_lookup;
           "flow_log.log" := lines_text ["short line"; ""; "1 2 3 4 5 6 7 8 9 10 11 12 13"] ]} [].

(** A flow log of one record, and the same with a second record and with a
    line of two fields. *)
Definition one_line_world : world :=
  World {[ "flow_log.log" := lines_text
     ["2 123456789012 eni-0a1b2c3d 10.0.1.201 198.51.100.2 443 80 6 25 20000 1620140761 1620140821 ACCEPT OK"] ]} [].

Definition short_line_added_world : world :=
  World {[ "flow_log.log" := lines_text
     ["2 123456789012 eni-0a1b2c3d 10.0.1.201 198.51.100.2 443 80 6 25 20000 1620140761 1620140821 ACCEPT OK";
      "short line"] ]} [].

Definition two_line_world : world :=
  World {[ "flow_log.log" := lines_text
     ["2 123456789012 eni-0a1b2c3d 10.0.1.201 198.51.100.2 443 80 6 25 20000 1620140761 1620140821 ACCEPT OK";
      "2 123456789012 eni-0a1b2c3d 10.0.1.201 198.51.100.2 443 9999 17 25 20000 1620140761 1620140821 ACCEPT OK"] ]} [].

Example split_fields : Py.split "  a b	c " = ["a"; "b"; "c"].
Proof. reflexivity. Qed.
Example int_ok : Py.int " +1_0 " = Some 10.
Proof. reflexivity. Qed.
Example int_bad : Py.int "-" = None ∧ Py.int "1__0" = None ∧ Py.int "0x10" = None.
Proof. repeat split; reflexivity. Qed.
Example lower_last : List.last (Py.split_on "_" (Py.lower "IPPROTO_TCP")) "" = "tcp".
Proof. reflexivity. Qed.
Example pretty_ex : pretty (-30 : Z) = "-30".
Proof. reflexivity. Qed.
Example lines_ex : Py.file_lines ("a" +:+ Py.NL +:+ Py.NL +:+ "b") = ["a"; ""; "b"].
Proof. reflexivity. Qed.

Example run_main :
  files (main linux_socket_vars plain_csv_reader sample_world).2 !! "output.txt"
  = Some (lines_text ["Tag Counts:"; "Tag,Count"; "Untagged,1"; "www,2"; "";
                      "Port/Protocol Combination Counts:"; "Port,Protocol,Count";
                      "9999,udp,1"; "80,tcp,2"]).
Proof. vm_compute. reflexivity. Qed.

(** * Properties *)

(** ** The monad *)

Lemma bind_Ok {A B} (m : M A) (f : A → M B) w a w' :
  m w = (Ok a, w') → (m ≫= f) w = f a w'.
Proof. intros H. unfold mbind, M_bind. by rewrite H. Qed.

Lemma bind_Raise {A B} (m : M A) (f : A → M B) w e w' :
  m w = (Raise e, w') → (m ≫= f) w = (Raise e, w').
Proof. intros H. unfold mbind, M_bind. by rewrite H. Qed.

Lemma ret_Ok {A} (a : A) w : mret (M := M) a w = (Ok a, w).
Proof. reflexivity. Qed.

Ltac monad_unfold :=
  unfold mbind, M_bind, mret, M_ret, raise, try_except, logging, path_exists in *.

(** ** Protocol resolution *)

Lemma scan_protocols_spec items pn w :
  scan_protocols items pn w =
  match Py.int pn with
  | Some n => (Ok (protocol_of items n), w)
  | None =>
      if has_protocols items
      then (Raise (int_error pn), w)
      else (Ok PyNone, w)
  end.
Proof.
  induction items as [|[name number] rest IH]; simpl.
  - by destruct (Py.int pn).
  - unfold has_protocols in *; simpl.
    destruct (Py.startswith name "IPPROTO_"); simpl; [|exact IH].
    unfold int_. destruct (Py.int pn) as [n|]; [|reflexivity].
    monad_unfold. destruct (Py.eq_int number n); [reflexivity|exact IH].
Qed.

Lemma get_protocol_name_spec sv pn w :
  get_protocol_name sv pn w =
  match Py.int pn with
  | Some n => (Ok (protocol_of sv n), w)
  | None =>
      if has_protocols sv
      then (Ok (PyStr "unknown"),
            World (files w) (log w ++ [(WARNING, "Unknown protocol number: " +:+ pn)]))
      else (Ok PyNone, w)
  end.
Proof.
  unfold get_protocol_name, try_except. rewrite scan_protocols_spec.
  destruct (Py.int pn); [reflexivity|].
  destruct (has_protocols sv); reflexivity.
Qed.

(** Resolution never raises, and never touches the files. *)
Lemma get_protocol_name_total sv pn w :
  ∃ v w', get_protocol_name sv pn w = (Ok v, w') ∧ files w' = files w.
Proof.
  rewrite get_protocol_name_spec. destruct (Py.int pn); [eauto|].
  destruct (has_protocols sv); eauto.
Qed.

Lemma protocol_of_unlisted items n :
  (∀ name number, (name, number) ∈ items →
     Py.startswith name "IPPROTO_" = true → Py.eq_int number n = false) →
  protocol_of items n = PyNone.
Proof.
  induction items as [|[name number] rest IH]; intros H; simpl; [done|].
  destruct (Py.startswith name "IPPROTO_") eqn:Hp; simpl.
  - rewrite (H name number); [|left|done]. apply IH.
    intros ???. apply H. by right.
  - apply IH. intros ???. apply H. by right.
Qed.

(** A number that parses and is in no [IPPROTO_] item resolves to [None],
    not to ["unknown"]. *)
Lemma get_protocol_name_unlisted sv pn n w :
  Py.int pn = Some n →
  (∀ name number, (name, number) ∈ sv →
     Py.startswith name "IPPROTO_" = true → Py.eq_int number n = false) →
  get_protocol_name sv pn w = (Ok PyNone, w).
Proof.
  intros Hn H. rewrite get_protocol_name_spec, Hn.
  by rewrite protocol_of_unlisted.
Qed.

(** C1. Protocol resolution returns a listed number's name ("6" gives "tcp",
    "17" gives "udp") and "unknown" for input that is no number, without
    raising; but a number that is in no item of the table, here "999", makes
    it return [None], where the claim and the function's own docstring say
    "unknown". *)
Theorem get_protocol_name_unlisted_number_is_None :
  ∀ w,
    get_protocol_name linux_socket_vars "6" w = (Ok (PyStr "tcp"), w)
    ∧ get_protocol_name linux_socket_vars "17" w = (Ok (PyStr "udp"), w)
    ∧ (get_protocol_name linux_socket_vars "tcp" w).1 = Ok (PyStr "unknown")
    ∧ get_protocol_name linux_socket_vars "999" w = (Ok PyNone, w)
    ∧ (get_protocol_name linux_socket_vars "999" w).1 ≠ Ok (PyStr "unknown").
Proof.
  intros w. rewrite !get_protocol_name_spec. repeat split; try reflexivity.
  simpl. discriminate.
Qed.

(** ** Counting dictionaries *)

Lemma dict_count_incr `{EqDecision K} (k k' : K) (d : list (K * Z)) :
  dict_count k' (dict_incr k d) = dict_count k' d + (if decide (k' = k) then 1 else 0).
Proof.
  induction d as [|[k0 n] d IH]; simpl.
  - repeat case_decide; congruence || lia.
  - destruct (decide (k = k0)) as [->|Hne]; simpl.
    + repeat case_decide; congruence || lia.
    + rewrite IH. repeat case_decide; congruence || lia.
Qed.

(** ** The flow log processor *)

Lemma process_line_short sv lt line counts w :
  (length (Py.split line) < 14)%nat →
  process_line sv lt line counts w = (Ok counts, w).
Proof.
  intros H. unfold process_line. by rewrite bool_decide_eq_true_2.
Qed.

Lemma process_line_long sv lt line counts w :
  (14 < length (Py.split line))%nat →
  process_line sv lt line counts w = (Raise too_many_values, w).
Proof.
  intros H. unfold process_line. rewrite bool_decide_eq_false_2 by lia.
  destruct (Py.split line) as [|? l]; [simpl in H; lia|].
  do 14 (destruct l as [|? l]; [simpl in H; lia|]). reflexivity.
Qed.

Lemma process_line_exact sv lt line counts w dstport protocol_number :
  length (Py.split line) = 14%nat →
  Py.split line !! 6%nat = Some dstport →
  Py.split line !! 7%nat = Some protocol_number →
  process_line sv lt line counts w =
  (protocol_name ← get_protocol_name sv protocol_number;
   mret (dict_incr (default "Untagged" (lt !! (dstport, protocol_name))) counts.1,
         dict_incr (dstport, protocol_name) counts.2)) w.
Proof.
  intros H H6 H7. unfold process_line. rewrite bool_decide_eq_false_2 by lia.
  destruct (Py.split line) as [|? l]; [done|].
  do 13 (destruct l as [|? l]; [done|]).
  destruct l; [|done]. simpl in H6, H7. by simplify_eq.
Qed.

Lemma nth_fields_14 (fields : list string) :
  length fields = 14%nat →
  ∃ dstport protocol_number,
    fields !! 6%nat = Some dstport ∧ fields !! 7%nat = Some protocol_number.
Proof.
  intros H.
  destruct (lookup_lt_is_Some_2 fields 6) as [a Ha]; [lia|].
  destruct (lookup_lt_is_Some_2 fields 7) as [b Hb]; [lia|]. eauto.
Qed.

(** The loop body on one line. A line of exactly 14 fields adds one to the
    tag count of the tag found for (destination port, resolved protocol
    name), ["Untagged"] when the table has no such key, and one to the count
    of that (port, name) pair, and changes no other count; a line of fewer
    than 14 fields changes nothing and raises nothing. *)
Lemma process_line_counts (sv : list (string * pyobj)) (lt : lookup_table_t) line
    (tag_counts : tag_counts_t) (port_protocol_counts : port_protocol_counts_t) w :
  (length (Py.split line) = 14%nat →
   ∃ dstport protocol_number protocol_name w' tag_counts' port_protocol_counts',
     Py.split line !! 6%nat = Some dstport
     ∧ Py.split line !! 7%nat = Some protocol_number
     ∧ get_protocol_name sv protocol_number w = (Ok protocol_name, w')
     ∧ process_line sv lt line (tag_counts, port_protocol_counts) w
       = (Ok (tag_counts', port_protocol_counts'), w')
     ∧ (∀ t, dict_count t tag_counts' = dict_count t tag_counts +
          if decide (t = default "Untagged" (lt !! (dstport, protocol_name)))
          then 1 else 0)
     ∧ (∀ k, dict_count k port_protocol_counts' = dict_count k port_protocol_counts +
          if decide (k = (dstport, protocol_name)) then 1 else 0))
  ∧ ((length (Py.split line) < 14)%nat →
     process_line sv lt line (tag_counts, port_protocol_counts) w
     = (Ok (tag_counts, port_protocol_counts), w)).
Proof.
  split; [|apply process_line_short].
  intros H. destruct (nth_fields_14 _ H) as (dstport & pn & H6 & H7).
  destruct (get_protocol_name_total sv pn w) as (name & w' & Hn & _).
  exists dstport, pn, name, w'. do 2 eexists.
  split; [done|]. split; [done|]. split; [done|]. split.
  - rewrite (process_line_exact _ _ _ _ _ _ _ H H6 H7).
    by rewrite (bind_Ok _ _ _ _ _ Hn).
  - simpl. split; intros; apply dict_count_incr.
Qed.

Lemma process_line_cases sv lt line counts w :
  ((length (Py.split line) ≤ 14)%nat
   ∧ ∃ counts' w', process_line sv lt line counts w = (Ok counts', w')
                   ∧ files w' = files w)
  ∨ ((14 < length (Py.split line))%nat
     ∧ process_line sv lt line counts w = (Raise too_many_values, w)).
Proof.
  destruct (decide (length (Py.split line) < 14)%nat) as [Hs|Hs].
  - left. split; [lia|]. rewrite process_line_short by done. eauto.
  - destruct (decide (length (Py.split line) = 14)%nat) as [He|He].
    + left. split; [lia|].
      destruct (nth_fields_14 _ He) as (dstport & pn & H6 & H7).
      destruct (get_protocol_name_total sv pn w) as (name & w' & Hn & Hf).
      rewrite (process_line_exact _ _ _ _ _ _ _ He H6 H7).
      rewrite (bind_Ok _ _ _ _ _ Hn). eauto.
    + right. split; [lia|]. apply process_line_long. lia.
Qed.

Lemma for_each_lines_long sv lt lines counts w :
  Exists (λ line, 14 < length (Py.split line))%nat lines →
  ∃ w', for_each lines (process_line sv lt) counts w = (Raise too_many_values, w')
        ∧ files w' = files w.
Proof.
  intros H. revert counts w.
  induction lines as [|line lines IH]; intros counts w; [by apply Exists_nil in H|].
  simpl. destruct (process_line_cases sv lt line counts w)
    as [(Hle & c' & w' & Hp & Hf)|(Hgt & Hp)].
  - apply Exists_cons in H as [H|H]; [lia|].
    rewrite (bind_Ok _ _ _ _ _ Hp).
    destruct (IH H c' w') as (w'' & -> & Hf'). exists w''. split; congruence.
  - rewrite (bind_Raise _ _ _ _ _ Hp). eauto.
Qed.

Lemma for_each_lines_ok sv lt lines counts w :
  Forall (λ line, length (Py.split line) ≤ 14)%nat lines →
  ∃ counts' w', for_each lines (process_line sv lt) counts w = (Ok counts', w')
                ∧ files w' = files w.
Proof.
  intros H. revert counts w.
  induction H as [|line lines Hl H IH]; intros counts w; simpl; [eauto|].
  destruct (process_line_cases sv lt line counts w)
    as [(Hle & c' & w' & Hp & Hf)|(Hgt & Hp)]; [|lia].
  rewrite (bind_Ok _ _ _ _ _ Hp).
  destruct (IH c' w') as (c'' & w'' & -> & Hf'). exists c'', w''. split; congruence.
Qed.

Lemma process_flow_logs_missing sv ff lt w :
  files w !! ff = None →
  process_flow_logs sv ff lt w =
  (Raise (Exn FileNotFoundError ("Flow log file '" +:+ ff +:+ "' not found.")),
   World (files w) (log w ++ [(ERROR, "Flow log file '" +:+ ff +:+ "' not found.")])).
Proof.
  intros H. unfold process_flow_logs.
  erewrite bind_Ok;
    [|unfold path_exists; rewrite bool_decide_eq_false_2;
      [reflexivity|rewrite H; by intros [? ?]]].
  reflexivity.
Qed.

Lemma process_flow_logs_existing sv ff lt w text :
  files w !! ff = Some text →
  process_flow_logs sv ff lt w =
  (counts ← for_each (Py.file_lines text) (process_line sv lt) ([], []);
   logging INFO "Finished processing flow logs.";;
   mret counts) w.
Proof.
  intros H. unfold process_flow_logs.
  erewrite bind_Ok;
    [|unfold path_exists; rewrite bool_decide_eq_true_2 by eauto; reflexivity].
  simpl. erewrite bind_Ok; [|unfold open_r; rewrite H; reflexivity]. reflexivity.
Qed.

(** C9. When some line of the flow log has more than 14 fields, the
    unpacking of that line raises [ValueError]: the line is neither skipped
    nor counted, processing of the file stops there, and no count maps are
    returned. *)
Theorem process_flow_logs_too_many_fields sv ff lt w text :
  files w !! ff = Some text →
  Exists (λ line, 14 < length (Py.split line))%nat (Py.file_lines text) →
  (∀ line counts w0, (14 < length (Py.split line))%nat →
     process_line sv lt line counts w0 = (Raise too_many_values, w0))
  ∧ ∃ w', process_flow_logs sv ff lt w = (Raise too_many_values, w')
          ∧ exn_cls too_many_values = ValueError
          ∧ files w' = files w.
Proof.
  intros Hf Hex. split; [intros; by apply process_line_long|].
  rewrite (process_flow_logs_existing _ _ _ _ _ Hf).
  destruct (for_each_lines_long sv lt _ ([], []) w Hex) as (w' & Hr & Hw).
  exists w'. by rewrite (bind_Raise _ _ _ _ _ Hr).
Qed.

(** The processor returns the count maps when the file exists and no line
    has more than 14 fields. *)
Lemma process_flow_logs_returns sv ff lt w text :
  files w !! ff = Some text →
  Forall (λ line, length (Py.split line) ≤ 14)%nat (Py.file_lines text) →
  ∃ counts w', process_flow_logs sv ff lt w = (Ok counts, w') ∧ files w' = files w.
Proof.
  intros Hf Hall. rewrite (process_flow_logs_existing _ _ _ _ _ Hf).
  destruct (for_each_lines_ok sv lt _ ([], []) w Hall) as (c & w' & Hr & Hw).
  rewrite (bind_Ok _ _ _ _ _ Hr). monad_unfold. simpl. eauto.
Qed.

(** ** The lookup table loader *)

Lemma row_entry_skipped row : row_skipped row = true ↔ row_entry row = None.
Proof.
  unfold row_skipped, row_entry.
  destruct row as [|c0 [|c1 [|c2 rest]]]; try (simpl; tauto).
  rewrite bool_decide_eq_false_2 by done.
  rewrite bool_decide_eq_false_2 by (simpl; lia). simpl.
  fold (blank c0) (blank c1) (blank c2).
  change (forallb (λ item, Py.is_empty (Py.strip item)) rest) with (forallb blank rest).
  destruct (blank c0 && (blank c1 && (blank c2 && forallb blank rest))); split; done.
Qed.

Lemma load_row_spec row lt w : load_row row lt w = (Ok (store_row lt row), w).
Proof.
  unfold load_row, store_row.
  destruct (row_skipped row) eqn:Hs.
  - apply row_entry_skipped in Hs. by rewrite Hs.
  - destruct (row_entry row) as [[key tag]|] eqn:He;
      [|apply row_entry_skipped in He; congruence].
    unfold row_entry in He.
    destruct row as [|c0 [|c1 [|c2 rest]]]; try done.
    destruct (forallb blank _); [done|]. by simplify_eq.
Qed.

Lemma for_each_load_row rows lt w :
  for_each rows load_row lt w = (Ok (foldl store_row lt rows), w).
Proof.
  revert lt. induction rows as [|row rows IH]; intros lt; simpl; [done|].
  by rewrite (bind_Ok _ _ _ _ _ (load_row_spec row lt w)).
Qed.

(** The whole of [load_lookup_table], case by case. *)
Lemma load_lookup_table_spec csv_reader lf w :
  load_lookup_table csv_reader lf w =
  match files w !! lf with
  | None => (Raise (Exn FileNotFoundError (lookup_not_found lf)),
             World (files w) (log w ++ [(ERROR, lookup_not_found lf)]))
  | Some text =>
      match csv_reader text with
      | [] | [] :: _ =>
          (Raise (Exn ValueError (lookup_bad_format lf)),
           World (files w) (log w ++ [(ERROR, lookup_bad_format lf)]))
      | _ :: rows =>
          (Ok (lookup_of_rows rows),
           World (files w)
             (log w ++ [(INFO, "Loaded " +:+ pretty (size (lookup_of_rows rows))
                               +:+ " mappings from the lookup table.")]))
      end
  end.
Proof.
  unfold load_lookup_table.
  destruct (files w !! lf) as [text|] eqn:Hf.
  - erewrite bind_Ok;
      [|unfold path_exists; rewrite bool_decide_eq_true_2 by eauto; reflexivity].
    simpl. erewrite bind_Ok; [|unfold open_r; rewrite Hf; reflexivity].
    destruct (csv_reader text) as [|[|h0 header] rows]; try reflexivity.
    erewrite bind_Ok; [|apply for_each_load_row]. reflexivity.
  - erewrite bind_Ok;
      [|unfold path_exists; rewrite bool_decide_eq_false_2;
        [reflexivity|rewrite Hf; by intros [? ?]]].
    reflexivity.
Qed.

(** The loader raises [FileNotFoundError] exactly when the file is missing,
    [ValueError] exactly when the file exists and the reader yields no row or
    an empty first row, and returns in every other case. *)
Lemma load_lookup_table_outcome csv_reader lf w :
  let r := (load_lookup_table csv_reader lf w).1 in
  ((∃ msg, r = Raise (Exn FileNotFoundError msg)) ↔ files w !! lf = None)
  ∧ ((∃ msg, r = Raise (Exn ValueError msg)) ↔
     ∃ text, files w !! lf = Some text
             ∧ (csv_reader text = [] ∨ head (csv_reader text) = Some []))
  ∧ ((∃ lt, r = Ok lt) ↔
     ∃ text h header rows, files w !! lf = Some text
                           ∧ csv_reader text = (h :: header) :: rows).
Proof.
  simpl. rewrite load_lookup_table_spec.
  destruct (files w !! lf) as [text|]; simpl.
  - destruct (csv_reader text) as [|[|h0 header] rows] eqn:Hc; simpl.
    + split; [split; [intros [? ?]; done|done]|]. split; split.
      * intros _. exists text. rewrite Hc. auto.
      * eauto.
      * intros [? ?]; done.
      * intros (?&?&?&?&?&?). simplify_eq. congruence.
    + split; [split; [intros [? ?]; done|done]|]. split; split.
      * intros _. exists text. rewrite Hc. auto.
      * eauto.
      * intros [? ?]; done.
      * intros (?&?&?&?&?&?). simplify_eq. congruence.
    + split; [split; [intros [? ?]; done|done]|]. split; split.
      * intros [? ?]; done.
      * intros (t & Ht & Hh). simplify_eq. rewrite Hc in Hh.
        destruct Hh as [?|?]; done.
      * intros _. exists text, h0, header, rows. by rewrite Hc.
      * eauto.
  - split; [split; eauto|]. split; split.
    + intros [? ?]; done.
    + intros (?&?&?); done.
    + intros [? ?]; done.
    + intros (?&?&?&?&?&?); done.
Qed.

Lemma forallb_blank row :
  forallb blank row = false ↔ Exists (λ item, blank item = false) row.
Proof.
  induction row as [|c row IH]; simpl.
  - split; [done|]. by intros ?%Exists_nil.
  - rewrite Exists_cons, <-IH. destruct (blank c); simpl; [|tauto].
    split; [tauto|]. by intros [?|?].
Qed.

Lemma row_entry_kept row :
  kept_row row ↔
  ∃ c0 c1 c2 rest, row = c0 :: c1 :: c2 :: rest
    ∧ row_entry row
      = Some ((Py.strip c0, PyStr (Py.lower (Py.strip c1))), Py.strip c2).
Proof.
  unfold kept_row, row_entry. split.
  - intros [Hlen Hex]. destruct row as [|c0 [|c1 [|c2 rest]]]; simpl in Hlen; try lia.
    exists c0, c1, c2, rest. split; [done|].
    apply forallb_blank in Hex. by rewrite Hex.
  - intros (c0 & c1 & c2 & rest & -> & He). split; [simpl; lia|].
    apply forallb_blank. by destruct (forallb blank _).
Qed.

Lemma row_entry_not_kept row : ¬ kept_row row ↔ row_entry row = None.
Proof.
  split.
  - intros Hk. destruct (row_entry row) as [e|] eqn:He; [|done].
    exfalso. apply Hk. apply row_entry_kept. unfold row_entry in *.
    destruct row as [|c0 [|c1 [|c2 rest]]]; try done.
    exists c0, c1, c2, rest. split; [done|]. by destruct (forallb blank _).
  - intros He (?&?&?&?&?&?)%row_entry_kept. congruence.
Qed.

Lemma kept_row_skipped row : kept_row row ↔ row_skipped row = false.
Proof.
  rewrite <-not_true_iff_false, row_entry_skipped, <-row_entry_not_kept.
  split; [tauto|]. apply dec_stable.
Qed.

(** C3, as amended. A data row with fewer than 3 columns, or whose columns
    are all blank, is skipped: the table and the world are unchanged and
    nothing is raised. Every other row, so also one with blank columns among
    its first three, stores an entry: (stripped column 0, stripped and
    lowercased column 1) maps to stripped column 2. *)
Theorem load_row_skips_short_or_blank (row : list string) (lt : lookup_table_t) (w : world) :
  ((length row < 3)%nat ∨ Forall (λ item, blank item = true) row →
   load_row row lt w = (Ok lt, w))
  ∧ ((3 ≤ length row)%nat ∧ Exists (λ item, blank item = false) row →
     ∃ c0 c1 c2 rest, row = c0 :: c1 :: c2 :: rest
       ∧ load_row row lt w
         = (Ok (<[(Py.strip c0, PyStr (Py.lower (Py.strip c1))) := Py.strip c2]> lt), w)).
Proof.
  rewrite load_row_spec. unfold store_row. split.
  - intros H. assert (¬ kept_row row) as Hk.
    { intros [Hlen Hex]. destruct H as [H|H]; [lia|].
      apply Exists_exists in Hex as (item & Hin & Hb).
      rewrite Forall_forall in H. specialize (H item Hin). congruence. }
    apply row_entry_not_kept in Hk. by rewrite Hk.
  - intros Hk. apply row_entry_kept in Hk as (c0 & c1 & c2 & rest & -> & He).
    exists c0, c1, c2, rest. split; [done|]. by rewrite He.
Qed.

Lemma load_row_skips_short_or_blank_witness :
  load_row ["80"; "tcp"] ∅ sample_world = (Ok ∅, sample_world)
  ∧ ∃ c0 c1 c2 rest, [" 25 "; " TCP "; "mail"] = c0 :: c1 :: c2 :: rest
      ∧ load_row [" 25 "; " TCP "; "mail"] ∅ sample_world
        = (Ok (<[(Py.strip c0, PyStr (Py.lower (Py.strip c1))) := Py.strip c2]> ∅),
           sample_world).
Proof.
  split.
  - apply (load_row_skips_short_or_blank ["80"; "tcp"] ∅ sample_world).
    left. simpl. lia.
  - apply (load_row_skips_short_or_blank [" 25 "; " TCP "; "mail"] ∅ sample_world).
    split; [simpl; lia|]. apply Exists_cons_hd. reflexivity.
Defined.

(** C3, as stated, fails: the row [80,,web] has two non-blank columns, and
    the loader stores an entry for it. *)
Lemma row_with_blank_column_is_loaded :
  non_blank_columns ["80"; ""; "web"] = 2%nat
  ∧ load_row ["80"; ""; "web"] ∅ blank_protocol_world
    = (Ok {[ ("80", PyStr "") := "web" ]}, blank_protocol_world)
  ∧ (load_lookup_table plain_csv_reader "lookup_table.csv" blank_protocol_world).1
    = Ok {[ ("80", PyStr "") := "web" ]}
  ∧ ({[ ("80", PyStr "") := "web" ]} : lookup_table_t) !! ("80", PyStr "") = Some "web".
Proof.
  split; [reflexivity|]. split; [by rewrite load_row_spec|].
  split; [by rewrite load_lookup_table_spec|]. apply lookup_singleton_eq.
Qed.

Lemma store_row_size lt row :
  (size (store_row lt row) ≤ size lt + (if decide (kept_row row) then 1 else 0))%nat.
Proof.
  unfold store_row. destruct (decide (kept_row row)) as [Hk|Hk].
  - apply row_entry_kept in Hk as (?&?&?&?&_&->).
    rewrite map_size_insert. destruct (lt !! _); simpl; lia.
  - apply row_entry_not_kept in Hk. rewrite Hk. lia.
Qed.

Lemma foldl_store_row_size rows lt :
  (size (foldl store_row lt rows) ≤ size lt + length (filter kept_row rows))%nat.
Proof.
  revert lt. induction rows as [|row rows IH]; intros lt; simpl; [lia|].
  specialize (IH (store_row lt row)). pose proof (store_row_size lt row) as Hs.
  rewrite filter_cons. destruct (decide (kept_row row)); simpl; lia.
Qed.

Lemma foldl_store_row_other rows lt key :
  (∀ row tag, row ∈ rows → row_entry row ≠ Some (key, tag)) →
  foldl store_row lt rows !! key = lt !! key.
Proof.
  revert lt. induction rows as [|row rows IH]; intros lt H; simpl; [done|].
  rewrite IH by (intros ???; apply H; by right).
  unfold store_row. destruct (row_entry row) as [[k t]|] eqn:He; [|done].
  apply lookup_insert_ne. intros ->. by apply (H row t); [left|].
Qed.

Lemma foldl_store_row_last pre row post lt key tag :
  row_entry row = Some (key, tag) →
  (∀ row' tag', row' ∈ post → row_entry row' ≠ Some (key, tag')) →
  foldl store_row lt (pre ++ row :: post) !! key = Some tag.
Proof.
  intros He Hpost. rewrite foldl_app. simpl.
  rewrite foldl_store_row_other by done.
  unfold store_row at 1. rewrite He. apply lookup_insert_eq.
Qed.

(** C5, as amended. For a lookup file with a non-empty header row, the
    table returned has at most as many entries as there are data rows with at
    least 3 columns that are not all blank; and the tag stored for a key is
    the stripped third column of the last such row with that key, whatever
    earlier rows said. *)
Theorem load_lookup_table_size_and_last_write
    (csv_reader : string → list (list string)) lf w text h header rows :
  files w !! lf = Some text →
  csv_reader text = (h :: header) :: rows →
  ∃ (lt : lookup_table_t) w',
    load_lookup_table csv_reader lf w = (Ok lt, w')
    ∧ (size lt ≤ length (filter kept_row rows))%nat
    ∧ ∀ pre row post key tag,
        rows = pre ++ row :: post →
        row_entry row = Some (key, tag) →
        (∀ row' tag', row' ∈ post → row_entry row' ≠ Some (key, tag')) →
        lt !! key = Some tag.
Proof.
  intros Hf Hc. rewrite load_lookup_table_spec, Hf, Hc. do 2 eexists.
  split; [reflexivity|]. split.
  - pose proof (foldl_store_row_size rows ∅) as H.
    rewrite map_size_empty in H. exact H.
  - intros pre row post key tag -> He Hpost.
    by apply foldl_store_row_last.
Qed.

Lemma load_lookup_table_size_and_last_write_witness :
  ∃ (lt : lookup_table_t) w',
    load_lookup_table plain_csv_reader "lookup_table.csv" sample_world = (Ok lt, w')
    ∧ (size lt ≤ length (filter kept_row
         [["80"; "tcp"; "web"]; ["25"; " TCP "; "mail"]; ["80"; "TCP"; "www"]]))%nat
    ∧ ∀ pre row post key tag,
        [["80"; "tcp"; "web"]; ["25"; " TCP "; "mail"]; ["80"; "TCP"; "www"]]
        = pre ++ row :: post →
        row_entry row = Some (key, tag) →
        (∀ row' tag', row' ∈ post → row_entry row' ≠ Some (key, tag')) →
        lt !! key = Some tag.
Proof.
  apply (load_lookup_table_size_and_last_write plain_csv_reader
           "lookup_table.csv" sample_world sample_lookup
           "dstport" ["protocol"; "tag"]).
  - reflexivity.
  - reflexivity.
Defined.

Example last_write_wins :
  (load_lookup_table plain_csv_reader "lookup_table.csv" sample_world).1
  = Ok {[ ("80", PyStr "tcp") := "www"; ("25", PyStr "tcp") := "mail" ]}.
Proof. rewrite load_lookup_table_spec. vm_compute. reflexivity. Qed.

(** C5, as stated, fails: the file with the single data row [80,,web] has
    no row with 3 non-blank columns, and the table loaded from it has one
    entry. *)
Lemma table_larger_than_valid_row_count :
  let rows := tail (plain_csv_reader (lines_text ["dstport,protocol,tag"; "80,,web"])) in
  length (filter (λ row, spec_valid_row row = true) rows) = 0%nat
  ∧ (load_lookup_table plain_csv_reader "lookup_table.csv" blank_protocol_world).1
    = Ok {[ ("80", PyStr "") := "web" ]}
  ∧ size ({[ ("80", PyStr "") := "web" ]} : lookup_table_t) = 1%nat.
Proof.
  split; [reflexivity|]. split; [by rewrite load_lookup_table_spec|].
  apply map_size_singleton.
Qed.

(** C4. The loader raises [FileNotFoundError] exactly when the file is
    missing and [ValueError] exactly when the header row is missing or empty
    ([load_lookup_table_outcome]), and the processor raises
    [FileNotFoundError] when the flow log is missing
    ([process_flow_logs_missing]); but the processor does not return normally
    for every existing file: here the flow log exists, its only line has 15
    fields, and the call raises [ValueError]. *)
Theorem process_flow_logs_raises_on_existing_file :
  is_Some (files long_line_world !! "flow_log.log")
  ∧ (length <$> (Py.split <$> Py.file_lines
       (default "" (files long_line_world !! "flow_log.log")))) = [15%nat]
  ∧ process_flow_logs linux_socket_vars "flow_log.log" ∅ long_line_world
    = (Raise too_many_values, long_line_world).
Proof.
  split; [by eexists|]. split; [reflexivity|].
  vm_compute. reflexivity.
Qed.

(** ** The report writer *)

Lemma str_app_assoc s t u : (s +:+ t) +:+ u = s +:+ (t +:+ u).
Proof.
  induction s as [|c s IH]; [done|].
  change (String c ((s +:+ t) +:+ u) = String c (s +:+ (t +:+ u))). by rewrite IH.
Qed.

Lemma str_app_nil_r s : s +:+ "" = s.
Proof.
  induction s as [|c s IH]; [done|].
  change (String c (s +:+ "") = String c s). by rewrite IH.
Qed.

Lemma file_write_opened p s c fs lg :
  file_write p s (World (<[p := c]> fs) lg) = (Ok tt, World (<[p := c +:+ s]> fs) lg).
Proof.
  unfold file_write; simpl. by rewrite lookup_insert_eq, insert_insert_eq.
Qed.

Lemma for_each_file_write {A} (f : A → string) rows p c fs lg :
  for_each rows (λ x _, file_write p (f x)) tt (World (<[p := c]> fs) lg)
  = (Ok tt, World (<[p := c +:+ concat_str (f <$> rows)]> fs) lg).
Proof.
  revert c. induction rows as [|x rows IH]; intros c; simpl.
  - by rewrite str_app_nil_r.
  - erewrite bind_Ok by apply file_write_opened.
    by rewrite IH, str_app_assoc.
Qed.

Lemma map_M_keyed_items (ppc : port_protocol_counts_t) w :
  map_M (λ x, k ← port_protocol_key x; mret (k, x)) ppc w =
  match keyed_items ppc with
  | inl ks => (Ok ks, w)
  | inr p => (Raise (int_error p), w)
  end.
Proof.
  induction ppc as [|x ppc IH]; simpl; [done|].
  destruct (Py.int x.1.1) as [n|] eqn:Hn.
  - erewrite bind_Ok;
      [|unfold port_protocol_key, int_; rewrite Hn; reflexivity].
    destruct (keyed_items ppc) as [ks|p].
    + by erewrite bind_Ok by exact IH.
    + by erewrite bind_Raise by exact IH.
  - erewrite bind_Raise; [reflexivity|].
    unfold port_protocol_key, int_. by rewrite Hn.
Qed.

(** The whole of [write_output], case by case. *)
Lemma write_output_spec (tc : tag_counts_t) (ppc : port_protocol_counts_t) out w :
  write_output tc ppc out w =
  match keyed_items ppc with
  | inl keyed =>
      (Ok tt,
       World (<[out := report_prefix tc
                       +:+ concat_str (port_protocol_row <$> sorted_by pair_ltb keyed)]>
                (files w))
             (log w ++ [(INFO, "Output successfully written to '" +:+ out +:+ "'.")]))
  | inr port =>
      (Raise (int_error port),
       World (<[out := report_prefix tc]> (files w))
             (log w ++ [(ERROR, "Error writing to output file '" +:+ out +:+ "': "
                                +:+ exn_msg (int_error port))]))
  end.
Proof.
  unfold write_output, try_except.
  erewrite bind_Ok by reflexivity.
  erewrite bind_Ok by apply file_write_opened.
  erewrite bind_Ok by apply file_write_opened.
  erewrite bind_Ok by apply for_each_file_write.
  erewrite bind_Ok by apply file_write_opened.
  erewrite bind_Ok by apply file_write_opened.
  pose proof (map_M_keyed_items ppc) as Hk.
  destruct (keyed_items ppc) as [keyed|port].
  - erewrite bind_Ok by apply Hk.
    erewrite bind_Ok by apply for_each_file_write.
    unfold logging, report_prefix, tag_header, port_protocol_header; simpl.
    by rewrite !str_app_assoc.
  - erewrite bind_Raise by apply Hk. simpl.
    unfold logging, report_prefix, tag_header, port_protocol_header; simpl.
    by rewrite !str_app_assoc.
Qed.

(** *** Sorting *)

Section insertion.
Context {A : Type} (lt : A → A → bool).

Hypothesis lt_asym : ∀ x y, lt x y = true → lt y x = false.
Hypothesis not_after_trans :
  ∀ x y z, not_after lt x y → not_after lt y z → not_after lt x z.

Lemma insert_sorted_perm x l : insert_sorted lt x l ≡ₚ x :: l.
Proof.
  induction l as [|y l IH]; simpl; [done|].
  destruct (lt y x); [|done]. rewrite IH. apply Permutation_swap.
Qed.

Lemma insertion_perm l : foldr (insert_sorted lt) [] l ≡ₚ l.
Proof.
  induction l as [|x l IH]; simpl; [done|].
  by rewrite insert_sorted_perm, IH.
Qed.

Lemma insert_sorted_sorted x l :
  StronglySorted (not_after lt) l → StronglySorted (not_after lt) (insert_sorted lt x l).
Proof.
  induction 1 as [|y l Hs IH Hy]; simpl.
  - repeat constructor.
  - destruct (lt y x) eqn:Hyx.
    + constructor; [done|]. rewrite insert_sorted_perm.
      constructor; [by apply lt_asym|done].
    + constructor; [by constructor|]. constructor; [done|].
      eapply Forall_impl; [exact Hy|]. intros z Hz.
      by apply (not_after_trans x y z).
Qed.

Lemma insertion_sorted l :
  StronglySorted (not_after lt) (foldr (insert_sorted lt) [] l).
Proof.
  induction l as [|x l IH]; simpl; [constructor|].
  by apply insert_sorted_sorted.
Qed.
End insertion.

Lemma StronglySorted_fmap_Forall {A B} (R1 : relation A) (R2 : relation B)
    (P : A → Prop) (f : A → B) l :
  (∀ x y, P x → P y → R1 x y → R2 (f x) (f y)) →
  Forall P l → StronglySorted R1 l → StronglySorted R2 (f <$> l).
Proof.
  intros HR HP Hs. induction Hs as [|x l Hs IH Hx]; csimpl; [constructor|].
  apply Forall_cons in HP as [Hpx HP]. constructor; [by apply IH|].
  apply Forall_fmap. rewrite Forall_forall in Hx, HP. apply Forall_forall.
  intros y Hy. apply HR; auto.
Qed.

(** [sorted_by] permutes the elements and orders them by key, provided [lt]
    is a strict order on the keys met. *)
Lemma sorted_by_perm {K A} (lt : K → K → bool) (keyed : list (K * A)) :
  sorted_by lt keyed ≡ₚ keyed.*2.
Proof. unfold sorted_by. by rewrite insertion_perm. Qed.

Lemma sorted_by_sorted {K A} (lt : K → K → bool) (R : relation A) (P : K * A → Prop)
    (keyed : list (K * A)) :
  (∀ x y, lt x y = true → lt y x = false) →
  (∀ x y z, lt y x = false → lt z y = false → lt z x = false) →
  (∀ a b, P a → P b → lt b.1 a.1 = false → R a.2 b.2) →
  Forall P keyed →
  StronglySorted R (sorted_by lt keyed).
Proof.
  intros Hasym Htrans HR HP. unfold sorted_by.
  apply (StronglySorted_fmap_Forall (not_after (λ a b, lt a.1 b.1)) R P snd).
  - exact HR.
  - by rewrite insertion_perm.
  - apply insertion_sorted.
    + intros x y. apply Hasym.
    + intros x y z. unfold not_after. apply Htrans.
Qed.

Lemma pair_ltb_false a b :
  pair_ltb b a = false ↔ (a.1 < b.1 ∨ (a.1 = b.1 ∧ a.2 ≤ b.2)).
Proof.
  unfold pair_ltb. destruct a as [a1 a2], b as [b1 b2]; simpl.
  rewrite orb_false_iff, andb_false_iff, Z.ltb_ge, Z.eqb_neq, Z.ltb_ge. lia.
Qed.

Lemma keyed_items_inl (ppc : port_protocol_counts_t) keyed :
  keyed_items ppc = inl keyed →
  keyed.*2 = ppc
  ∧ Forall (λ d, d.1.1 = d.2.2 ∧ Py.int d.2.1.1 = Some d.1.2) keyed.
Proof.
  revert keyed. induction ppc as [|x ppc IH]; intros keyed; simpl.
  - intros [= <-]. by split.
  - destruct (Py.int x.1.1) as [n|] eqn:Hn; [|done].
    destruct (keyed_items ppc) as [ks|]; [|done]. intros [= <-].
    destruct (IH ks eq_refl) as [<- HF]. split; [done|].
    constructor; [done|exact HF].
Qed.

Lemma keyed_items_inr (ppc : port_protocol_counts_t) port :
  keyed_items ppc = inr port → Exists (λ x, Py.int x.1.1 = None) ppc.
Proof.
  induction ppc as [|x ppc IH]; simpl; [done|].
  destruct (Py.int x.1.1) as [n|] eqn:Hn.
  - destruct (keyed_items ppc) as [|p]; [done|]. intros [= <-].
    apply Exists_cons_tl. by apply IH.
  - intros _. by apply Exists_cons_hd.
Qed.

Lemma keyed_items_bad (ppc : port_protocol_counts_t) :
  Exists (λ x, Py.int x.1.1 = None) ppc → ∃ port, keyed_items ppc = inr port.
Proof.
  intros H. destruct (keyed_items ppc) as [keyed|port] eqn:Hk; [|eauto].
  apply keyed_items_inl in Hk as [<- HF].
  apply Exists_exists in H as (x & Hin & Hx).
  apply list_elem_of_fmap in Hin as (d & -> & Hd).
  rewrite Forall_forall in HF. destruct (HF d Hd) as [_ ?]. congruence.
Qed.

Lemma pair_ltb_true a b :
  pair_ltb a b = true ↔ (a.1 < b.1 ∨ (a.1 = b.1 ∧ a.2 < b.2)).
Proof.
  unfold pair_ltb. destruct a as [a1 a2], b as [b1 b2]; simpl.
  rewrite orb_true_iff, andb_true_iff, !Z.ltb_lt, Z.eqb_eq. tauto.
Qed.

Lemma pair_ltb_asym a b : pair_ltb a b = true → pair_ltb b a = false.
Proof. rewrite pair_ltb_true, pair_ltb_false. lia. Qed.

Lemma pair_ltb_trans a b c :
  pair_ltb b a = false → pair_ltb c b = false → pair_ltb c a = false.
Proof. rewrite !pair_ltb_false. lia. Qed.

Lemma decorate_snd {A K} (key : A → K) (l : list A) :
  (map (λ x, (key x, x)) l).*2 = l.
Proof. induction l as [|x l IH]; [done|]. csimpl. f_equal. exact IH. Qed.

Lemma sorted_tags (tc : tag_counts_t) :
  let rows := sorted_by Z.ltb (map (λ x, (x.2, x)) tc) in
  rows ≡ₚ tc ∧ StronglySorted count_le rows.
Proof.
  split.
  - rewrite sorted_by_perm. by rewrite decorate_snd.
  - apply (sorted_by_sorted Z.ltb count_le (λ d, d.1 = d.2.2)).
    + intros x y. rewrite Z.ltb_lt, Z.ltb_ge. lia.
    + intros x y z. rewrite !Z.ltb_ge. lia.
    + intros a b Ha Hb. rewrite Z.ltb_ge. unfold count_le. lia.
    + apply Forall_forall. intros d (x & -> & _)%list_elem_of_fmap. done.
Qed.

Lemma sorted_protocols (ppc : port_protocol_counts_t) keyed :
  keyed_items ppc = inl keyed →
  sorted_by pair_ltb keyed ≡ₚ ppc
  ∧ StronglySorted count_port_le (sorted_by pair_ltb keyed).
Proof.
  intros [Hk HF]%keyed_items_inl. split.
  - by rewrite sorted_by_perm, Hk.
  - apply (sorted_by_sorted pair_ltb count_port_le
             (λ d, d.1.1 = d.2.2 ∧ Py.int d.2.1.1 = Some d.1.2)).
    + apply pair_ltb_asym.
    + apply pair_ltb_trans.
    + intros a b [Ha1 Ha2] [Hb1 Hb2] Hab%pair_ltb_false.
      exists a.1.2, b.1.2. split; [done|]. split; [done|]. lia.
    + exact HF.
Qed.

(** C6. Whenever [write_output] returns, the report is the tag header, the
    tag rows, the port/protocol header and the port/protocol rows; the tag
    rows are the items of the tag counts in non-decreasing order of count,
    and the port/protocol rows are the items of the port/protocol counts in
    non-decreasing lexicographic order of (count, [int(port)]). *)
Theorem write_output_sorted (tc : tag_counts_t) (ppc : port_protocol_counts_t)
    (out : string) (w w' : world) :
  write_output tc ppc out w = (Ok tt, w') →
  ∃ rows1 rows2,
    files w' !! out
    = Some (tag_header +:+ concat_str (tag_row <$> rows1)
            +:+ port_protocol_header +:+ concat_str (port_protocol_row <$> rows2))
    ∧ rows1 ≡ₚ tc ∧ StronglySorted count_le rows1
    ∧ rows2 ≡ₚ ppc ∧ StronglySorted count_port_le rows2.
Proof.
  rewrite write_output_spec.
  destruct (keyed_items ppc) as [keyed|port] eqn:Hk; [|done]. intros [= <-].
  exists (sorted_by Z.ltb (map (λ x, (x.2, x)) tc)), (sorted_by pair_ltb keyed).
  destruct (sorted_tags tc) as [Hp1 Hs1].
  destruct (sorted_protocols ppc keyed Hk) as [Hp2 Hs2].
  split; [|done]. simpl. rewrite lookup_insert_eq. f_equal.
  unfold report_prefix. by rewrite !str_app_assoc.
Qed.

Lemma write_output_sorted_witness :
  ∃ rows1 rows2,
    files (write_output [("web", 2); ("Untagged", 1)]
             [(("80", PyStr "tcp"), 2); (("9", PyNone), 2); (("443", PyStr "tcp"), 1)]
             "output.txt" sample_world).2 !! "output.txt"
    = Some (tag_header +:+ concat_str (tag_row <$> rows1)
            +:+ port_protocol_header +:+ concat_str (port_protocol_row <$> rows2))
    ∧ rows1 ≡ₚ [("web", 2); ("Untagged", 1)]
    ∧ StronglySorted count_le rows1
    ∧ rows2 ≡ₚ [(("80", PyStr "tcp"), 2); (("9", PyNone), 2); (("443", PyStr "tcp"), 1)]
    ∧ StronglySorted count_port_le rows2.
Proof.
  apply (write_output_sorted _ _ "output.txt" sample_world).
  vm_compute. reflexivity.
Defined.

Example write_output_report :
  files (write_output [("web", 2); ("Untagged", 1)]
           [(("80", PyStr "tcp"), 2); (("9", PyNone), 2); (("443", PyStr "tcp"), 1)]
           "output.txt" sample_world).2 !! "output.txt"
  = Some (lines_text ["Tag Counts:"; "Tag,Count"; "Untagged,1"; "web,2"; "";
                      "Port/Protocol Combination Counts:"; "Port,Protocol,Count";
                      "443,tcp,1"; "9,None,2"; "80,tcp,2"]).
Proof. vm_compute. reflexivity. Qed.

(** C10. If some port key is no integer literal, [write_output] raises the
    [ValueError] of [int()] when it computes the sort keys of the
    port/protocol section; by then the output file holds the complete tag
    section and the two header lines of the port/protocol section, and it is
    left so, every other file untouched. [write_output] returns normally
    exactly when every port key is an integer literal. *)
Theorem write_output_bad_port (tc : tag_counts_t) (ppc : port_protocol_counts_t)
    (out : string) (w : world) :
  (Exists (λ x, Py.int x.1.1 = None) ppc →
   ∃ port w', write_output tc ppc out w = (Raise (int_error port), w')
     ∧ exn_cls (int_error port) = ValueError
     ∧ files w' = <[out := report_prefix tc]> (files w))
  ∧ ((∃ w', write_output tc ppc out w = (Ok tt, w'))
     ↔ Forall (λ x, is_Some (Py.int x.1.1)) ppc).
Proof.
  rewrite write_output_spec. split.
  - intros [port Hk]%keyed_items_bad. rewrite Hk. by do 2 eexists.
  - destruct (keyed_items ppc) as [keyed|port] eqn:Hk; split.
    + intros _. apply keyed_items_inl in Hk as [<- HF].
      apply Forall_fmap. eapply Forall_impl; [exact HF|].
      intros d [_ Hd]. simpl. by rewrite Hd.
    + eauto.
    + intros [? ?]; done.
    + intros HF. apply keyed_items_inr in Hk.
      apply Exists_exists in Hk as (x & Hin & Hx).
      rewrite Forall_forall in HF. destruct (HF x Hin) as [? ?]. congruence.
Qed.

Lemma write_output_bad_port_witness :
  (∃ port w', write_output [("web", 2); ("Untagged", 1)]
                [(("80", PyStr "tcp"), 2); (("-", PyStr "tcp"), 1)]
                "output.txt" sample_world = (Raise (int_error port), w')
     ∧ exn_cls (int_error port) = ValueError
     ∧ files w' = <[ "output.txt" := report_prefix [("web", 2); ("Untagged", 1)] ]>
                    (files sample_world))
  ∧ ∃ w', write_output [("web", 2)] [(("80", PyStr "tcp"), 2)] "output.txt" sample_world
          = (Ok tt, w').
Proof.
  split.
  - apply (write_output_bad_port [("web", 2); ("Untagged", 1)]
             [(("80", PyStr "tcp"), 2); (("-", PyStr "tcp"), 1)] "output.txt" sample_world).
    apply Exists_cons_tl, Exists_cons_hd. reflexivity.
  - apply (write_output_bad_port [("web", 2)] [(("80", PyStr "tcp"), 2)]
             "output.txt" sample_world).
    repeat constructor. by eexists.
Defined.

Example write_output_partial_report :
  files (write_output [("web", 2); ("Untagged", 1)]
           [(("80", PyStr "tcp"), 2); (("-", PyStr "tcp"), 1)]
           "output.txt" sample_world).2 !! "output.txt"
  = Some (lines_text ["Tag Counts:"; "Tag,Count"; "Untagged,1"; "web,2"; "";
                      "Port/Protocol Combination Counts:"; "Port,Protocol,Count"]).
Proof. vm_compute. reflexivity. Qed.

(** ** The driver *)

Lemma driver_handler_catches e :
  ∃ msg, driver_handler e = Some (logging ERROR msg).
Proof.
  unfold driver_handler.
  destruct (isinstance e FileNotFoundError); [eauto|].
  destruct (isinstance e ValueError); [eauto|].
  replace (isinstance e Exception) with true; [eauto|].
  by destruct e as [[] ?].
Qed.

Lemma try_except_driver (body : M unit) w :
  ∃ w', try_except body driver_handler w = (Ok tt, w').
Proof.
  unfold try_except. destruct (body w) as [[[]|e] w']; [eauto|].
  destruct (driver_handler_catches e) as [msg ->]. unfold logging. eauto.
Qed.

Lemma log_parser_with_returns load process write lf ff out w :
  ∃ w', log_parser_with load process write lf ff out w = (Ok tt, w').
Proof. apply try_except_driver. Qed.

(** C7. The driver returns normally whatever its three stages do: each
    stage may return or raise any exception, of any class and in any world,
    and the call still ends in [Ok]; so does the driver over the program's
    own three stages, for all inputs. *)
Theorem log_parser_never_raises :
  (∀ load process write lf ff out w,
     ∃ w', log_parser_with load process write lf ff out w = (Ok tt, w'))
  ∧ (∀ sv csv_reader lf ff out w,
       ∃ w', log_parser sv csv_reader lf ff out w = (Ok tt, w')).
Proof.
  split; intros; apply log_parser_with_returns.
Qed.

(** ** Determinism *)

Lemma oblivious_ret {A} (a : A) : oblivious (mret a).
Proof. by exists (Ok a). Qed.

Lemma oblivious_raise {A} e : oblivious (raise (A := A) e).
Proof. by exists (Raise e). Qed.

Lemma oblivious_logging l msg : oblivious (logging l msg).
Proof. by exists (Ok tt). Qed.

Lemma oblivious_bind {A B} (m : M A) (f : A → M B) :
  oblivious m → (∀ a, oblivious (f a)) → oblivious (m ≫= f).
Proof.
  intros [r Hm] Hf. destruct r as [a|e].
  - destruct (Hf a) as [r' Hr']. exists r'. intros w.
    destruct (Hm w) as [H1 H2]. unfold mbind, M_bind.
    destruct (m w) as [r0 w0]; simpl in *; subst r0.
    destruct (Hr' w0) as [-> ->]. done.
  - exists (Raise e). intros w.
    destruct (Hm w) as [H1 H2]. unfold mbind, M_bind.
    destruct (m w) as [r0 w0]; simpl in *; subst r0. done.
Qed.

Lemma oblivious_try_except {A} (body : M A) handler :
  oblivious body →
  (∀ e h, handler e = Some h → oblivious h) →
  oblivious (try_except body handler).
Proof.
  intros [r Hm] Hh. destruct r as [a|e].
  - exists (Ok a). intros w. destruct (Hm w) as [H1 H2]. unfold try_except.
    destruct (body w) as [r0 w0]; simpl in *; subst r0. done.
  - destruct (handler e) as [h|] eqn:He.
    + destruct (Hh e h He) as [r' Hr']. exists r'. intros w.
      destruct (Hm w) as [H1 H2]. unfold try_except.
      destruct (body w) as [r0 w0]; simpl in *; subst r0. rewrite He.
      destruct (Hr' w0) as [-> ->]. done.
    + exists (Raise e). intros w.
      destruct (Hm w) as [H1 H2]. unfold try_except.
      destruct (body w) as [r0 w0]; simpl in *; subst r0. by rewrite He.
Qed.

Lemma oblivious_for_each {A S} (l : list A) (body : A → S → M S) s :
  (∀ x s, oblivious (body x s)) → oblivious (for_each l body s).
Proof.
  intros Hb. revert s. induction l as [|x l IH]; intros s; simpl.
  - apply oblivious_ret.
  - apply oblivious_bind; [apply Hb|apply IH].
Qed.

Lemma oblivious_int_ s : oblivious (int_ s).
Proof.
  unfold int_. destruct (Py.int s); [apply oblivious_ret|apply oblivious_raise].
Qed.

Lemma oblivious_scan_protocols items pn : oblivious (scan_protocols items pn).
Proof.
  induction items as [|[name number] rest IH]; simpl; [apply oblivious_ret|].
  destruct (Py.startswith name "IPPROTO_"); [|exact IH].
  apply oblivious_bind; [apply oblivious_int_|]. intros n.
  destruct (Py.eq_int number n); [apply oblivious_ret|exact IH].
Qed.

Lemma oblivious_get_protocol_name sv pn : oblivious (get_protocol_name sv pn).
Proof.
  apply oblivious_try_except; [apply oblivious_scan_protocols|].
  intros e h. destruct (_ || _); [|done]. intros [= <-].
  apply oblivious_bind; [apply oblivious_logging|]. intros _. apply oblivious_ret.
Qed.

Lemma oblivious_process_line sv lt line counts :
  oblivious (process_line sv lt line counts).
Proof.
  unfold process_line. destruct (bool_decide _); [apply oblivious_ret|].
  destruct (Py.split line) as [|? l]; [apply oblivious_raise|].
  do 13 (destruct l as [|? l]; [apply oblivious_raise|]).
  destruct l; [|apply oblivious_raise].
  apply oblivious_bind; [apply oblivious_get_protocol_name|].
  intros name. apply oblivious_ret.
Qed.

(** The processor reads the flow log and nothing else, and writes no file. *)
Lemma process_flow_logs_reads sv ff lt w1 w2 :
  files w1 !! ff = files w2 !! ff →
  (process_flow_logs sv ff lt w1).1 = (process_flow_logs sv ff lt w2).1
  ∧ files (process_flow_logs sv ff lt w1).2 = files w1
  ∧ files (process_flow_logs sv ff lt w2).2 = files w2.
Proof.
  intros Hff. destruct (files w1 !! ff) as [text|] eqn:H1; symmetry in Hff.
  - rewrite !(process_flow_logs_existing _ _ _ _ text) by done.
    assert (oblivious
      (counts ← for_each (Py.file_lines text) (process_line sv lt) ([], []);
       logging INFO "Finished processing flow logs.";; mret counts)) as [r Hr].
    { apply oblivious_bind.
      - apply oblivious_for_each. intros. apply oblivious_process_line.
      - intros c. apply oblivious_bind; [apply oblivious_logging|].
        intros _. apply oblivious_ret. }
    destruct (Hr w1) as [-> ->], (Hr w2) as [-> ->]. done.
  - by rewrite !process_flow_logs_missing by done.
Qed.

(** The loader reads the lookup file and nothing else, and writes no file. *)
Lemma load_lookup_table_reads csv_reader lf w1 w2 :
  files w1 !! lf = files w2 !! lf →
  (load_lookup_table csv_reader lf w1).1 = (load_lookup_table csv_reader lf w2).1
  ∧ files (load_lookup_table csv_reader lf w1).2 = files w1
  ∧ files (load_lookup_table csv_reader lf w2).2 = files w2.
Proof.
  intros Hlf. rewrite !load_lookup_table_spec, <-Hlf.
  destruct (files w1 !! lf) as [text|]; [|done].
  by destruct (csv_reader text) as [|[|??] ?].
Qed.

(** The writer's result and the text it leaves in the output file depend on
    the two count maps only. *)
Lemma write_output_writes (tc : tag_counts_t) (ppc : port_protocol_counts_t) out :
  ∃ r report, ∀ w,
    (write_output tc ppc out w).1 = r
    ∧ files (write_output tc ppc out w).2 = <[out := report]> (files w).
Proof.
  destruct (keyed_items ppc) as [keyed|port] eqn:Hk.
  - exists (Ok tt), (report_prefix tc
       +:+ concat_str (port_protocol_row <$> sorted_by pair_ltb keyed)).
    intros w. by rewrite write_output_spec, Hk.
  - exists (Raise (int_error port)), (report_prefix tc).
    intros w. by rewrite write_output_spec, Hk.
Qed.

Lemma handled_files (e : exn) (w : world) :
  files (match driver_handler e with
         | Some h => h w
         | None => (Raise e, w)
         end).2 = files w.
Proof. by destruct (driver_handler_catches e) as [msg ->]. Qed.

(** Two runs that start with the same lookup table and the same flow log
    either both leave every file as it was, or both write the same report. *)
Lemma log_parser_files sv csv_reader lf ff out w1 w2 :
  files w1 !! lf = files w2 !! lf →
  files w1 !! ff = files w2 !! ff →
  (files (log_parser sv csv_reader lf ff out w1).2 = files w1
   ∧ files (log_parser sv csv_reader lf ff out w2).2 = files w2)
  ∨ (∃ report,
       files (log_parser sv csv_reader lf ff out w1).2 = <[out := report]> (files w1)
       ∧ files (log_parser sv csv_reader lf ff out w2).2 = <[out := report]> (files w2)).
Proof.
  intros Hlf Hff. unfold log_parser, log_parser_with, try_except, mbind, M_bind.
  destruct (load_lookup_table_reads csv_reader lf w1 w2 Hlf) as (Hr & Hw1 & Hw2).
  destruct (load_lookup_table csv_reader lf w1) as [r1 a1],
           (load_lookup_table csv_reader lf w2) as [r2 a2].
  simpl in Hr, Hw1, Hw2. subst r2.
  destruct r1 as [lt|e]; cbv beta iota;
    [|left; rewrite !handled_files; done].
  assert (files a1 !! ff = files a2 !! ff) as Hff' by congruence.
  destruct (process_flow_logs_reads sv ff lt a1 a2 Hff') as (Hr & Hb1 & Hb2).
  destruct (process_flow_logs sv ff lt a1) as [r1 b1],
           (process_flow_logs sv ff lt a2) as [r2 b2].
  simpl in Hr, Hb1, Hb2. subst r2.
  destruct r1 as [counts|e]; cbv beta iota;
    [|left; rewrite !handled_files; split; congruence].
  destruct (write_output_writes counts.1 counts.2 out) as (r & report & Hwr).
  right. exists report.
  destruct (Hwr b1) as [Hr1 Hf1], (Hwr b2) as [Hr2 Hf2].
  destruct (write_output counts.1 counts.2 out b1) as [r1 c1],
           (write_output counts.1 counts.2 out b2) as [r2 c2].
  simpl in Hr1, Hf1, Hr2, Hf2. subst r1 r2.
  destruct r as [[]|e]; [|rewrite !handled_files]; split; simpl; congruence.
Qed.

(** C8. Two runs of the driver that start in worlds with the same lookup
    table and the same flow log, whatever else the worlds hold and whatever
    is in the process log, either both stop before the output file is
    opened and change no file, or both leave the same text in the output
    file; so if the output file was the same (or absent) before the two runs,
    it is the same after them. *)
Theorem log_parser_deterministic
    (sv : list (string * pyobj)) (csv_reader : string → list (list string))
    (lf ff out : string) (w1 w2 : world) :
  files w1 !! lf = files w2 !! lf →
  files w1 !! ff = files w2 !! ff →
  ((files (log_parser sv csv_reader lf ff out w1).2 = files w1
    ∧ files (log_parser sv csv_reader lf ff out w2).2 = files w2)
   ∨ (∃ report,
        files (log_parser sv csv_reader lf ff out w1).2 !! out = Some report
        ∧ files (log_parser sv csv_reader lf ff out w2).2 !! out = Some report))
  ∧ (files w1 !! out = files w2 !! out →
     files (log_parser sv csv_reader lf ff out w1).2 !! out
     = files (log_parser sv csv_reader lf ff out w2).2 !! out).
Proof.
  intros Hlf Hff.
  destruct (log_parser_files sv csv_reader lf ff out w1 w2 Hlf Hff)
    as [[H1 H2]|(report & H1 & H2)].
  - split; [by left|]. by rewrite H1, H2.
  - rewrite H1, H2, !lookup_insert_eq. split; [right; eauto|done].
Qed.

(** Running the driver again on its own result, the output file being
    neither of the inputs, leaves the output file as the first run did. *)
Lemma log_parser_rerun sv csv_reader lf ff out w :
  out ≠ lf → out ≠ ff →
  let w' := (log_parser sv csv_reader lf ff out w).2 in
  files (log_parser sv csv_reader lf ff out w').2 !! out = files w' !! out.
Proof.
  intros Hlf Hff w'.
  assert (files w !! lf = files w' !! lf ∧ files w !! ff = files w' !! ff) as [H1 H2].
  { destruct (log_parser_files sv csv_reader lf ff out w w eq_refl eq_refl)
      as [[H _]|(report & H & _)]; subst w'; rewrite H; [done|].
    by rewrite !lookup_insert_ne. }
  destruct (log_parser_files sv csv_reader lf ff out w w' H1 H2)
    as [[Ha Hb]|(report & Ha & Hb)].
  - by rewrite Hb.
  - rewrite Hb. fold w' in Ha. by rewrite Ha, !lookup_insert_eq.
Qed.

(** ** Instances of the theorems above on the sample worlds *)

Lemma process_line_counts_witness :
  (∃ dstport protocol_number protocol_name w' tag_counts' port_protocol_counts',
     Py.split "2 123456789012 eni-0a1b2c3d 10.0.1.201 198.51.100.2 443 80 6 25 20000 1620140761 1620140821 ACCEPT OK"
       !! 6%nat = Some dstport
     ∧ Py.split "2 123456789012 eni-0a1b2c3d 10.0.1.201 198.51.100.2 443 80 6 25 20000 1620140761 1620140821 ACCEPT OK"
       !! 7%nat = Some protocol_number
     ∧ get_protocol_name linux_socket_vars protocol_number sample_world
       = (Ok protocol_name, w')
     ∧ process_line linux_socket_vars {[ ("80", PyStr "tcp") := "web" ]}
         "2 123456789012 eni-0a1b2c3d 10.0.1.201 198.51.100.2 443 80 6 25 20000 1620140761 1620140821 ACCEPT OK"
         ([("web", 3)], []) sample_world
       = (Ok (tag_counts', port_protocol_counts'), w')
     ∧ (∀ t, dict_count t tag_counts' = dict_count t [("web", 3)] +
          if decide (t = default "Untagged"
                           (({[ ("80", PyStr "tcp") := "web" ]} : lookup_table_t)
                              !! (dstport, protocol_name)))
          then 1 else 0)
     ∧ (∀ k, dict_count k port_protocol_counts' = dict_count k [] +
          if decide (k = (dstport, protocol_name)) then 1 else 0))
  ∧ process_line linux_socket_vars {[ ("80", PyStr "tcp") := "web" ]}
      "short line" ([("web", 3)], []) sample_world
    = (Ok ([("web", 3)], []), sample_world).
Proof.
  split.
  - apply (proj1 (process_line_counts linux_socket_vars {[ ("80", PyStr "tcp") := "web" ]}
      "2 123456789012 eni-0a1b2c3d 10.0.1.201 198.51.100.2 443 80 6 25 20000 1620140761 1620140821 ACCEPT OK"
      [("web", 3)] [] sample_world)).
    vm_compute. reflexivity.
  - apply (proj2 (process_line_counts linux_socket_vars {[ ("80", PyStr "tcp") := "web" ]}
      "short line" [("web", 3)] [] sample_world)).
    vm_compute. lia.
Defined.

Lemma process_flow_logs_too_many_fields_witness :
  (∀ line counts w0, (14 < length (Py.split line))%nat →
     process_line linux_socket_vars ∅ line counts w0 = (Raise too_many_values, w0))
  ∧ ∃ w', process_flow_logs linux_socket_vars "flow_log.log" ∅ long_line_world
          = (Raise too_many_values, w')
          ∧ exn_cls too_many_values = ValueError
          ∧ files w' = files long_line_world.
Proof.
  apply (process_flow_logs_too_many_fields linux_socket_vars "flow_log.log" ∅
           long_line_world
           (lines_text ["2 123456789012 eni-0a1b2c3d 10.0.1.201 198.51.100.2 443 80 6 25 20000 1620140761 1620140821 ACCEPT OK extra"])).
  - reflexivity.
  - apply Exists_cons_hd. vm_compute. lia.
Defined.

Lemma log_parser_deterministic_witness :
  ((files (log_parser linux_socket_vars plain_csv_reader
             "lookup_table.csv" "flow_log.log" "output.txt" sample_world).2
    = files sample_world
    ∧ files (log_parser linux_socket_vars plain_csv_reader
               "lookup_table.csv" "flow_log.log" "output.txt" sample_world_2).2
      = files sample_world_2)
   ∨ (∃ report,
        files (log_parser linux_socket_vars plain_csv_reader
                 "lookup_table.csv" "flow_log.log" "output.txt" sample_world).2
          !! "output.txt" = Some report
        ∧ files (log_parser linux_socket_vars plain_csv_reader
                   "lookup_table.csv" "flow_log.log" "output.txt" sample_world_2).2
            !! "output.txt" = Some report))
  ∧ (files sample_world !! "output.txt" = files sample_world_2 !! "output.txt" →
     files (log_parser linux_socket_vars plain_csv_reader
              "lookup_table.csv" "flow_log.log" "output.txt" sample_world).2
       !! "output.txt"
     = files (log_parser linux_socket_vars plain_csv_reader
                "lookup_table.csv" "flow_log.log" "output.txt" sample_world_2).2
         !! "output.txt").
Proof.
  apply (log_parser_deterministic linux_socket_vars plain_csv_reader
           "lookup_table.csv" "flow_log.log" "output.txt" sample_world sample_world_2).
  - reflexivity.
  - reflexivity.
Defined.

Example same_report_over_stale_output :
  files (log_parser linux_socket_vars plain_csv_reader
           "lookup_table.csv" "flow_log.log" "output.txt" sample_world_2).2 !! "output.txt"
  = files (main linux_socket_vars plain_csv_reader sample_world).2 !! "output.txt".
Proof. vm_compute. reflexivity. Qed.


(** * Further properties of the code *)

(** ** [get_protocol_name] *)

Lemma protocol_of_first_match pre name number post n :
  Py.startswith name "IPPROTO_" = true →
  Py.eq_int number n = true →
  Forall (λ it, Py.startswith it.1 "IPPROTO_" && Py.eq_int it.2 n = false) pre →
  protocol_of (pre ++ (name, number) :: post) n
  = PyStr (List.last (Py.split_on "_" (Py.lower name)) "").
Proof.
  intros Hs He Hpre. induction Hpre as [|[name' number'] pre Hx _ IH]; simpl.
  - by rewrite Hs, He.
  - simpl in Hx. by rewrite Hx.
Qed.

(** X1. For a protocol number that [int()] accepts, the first [IPPROTO_]
    item of [vars(socket)] with that value decides the answer, which is the
    part of its lowercased name after the last underscore; later items with
    the same value are never looked at. *)
Theorem get_protocol_name_first_match
    (pre : list (string * pyobj)) (name : string) (number : pyobj)
    (post : list (string * pyobj)) (pn : string) (n : Z) (w : world) :
  Py.int pn = Some n →
  Py.startswith name "IPPROTO_" = true →
  Py.eq_int number n = true →
  Forall (λ it, Py.startswith it.1 "IPPROTO_" && Py.eq_int it.2 n = false) pre →
  get_protocol_name (pre ++ (name, number) :: post) pn w
  = (Ok (PyStr (List.last (Py.split_on "_" (Py.lower name)) "")), w).
Proof.
  intros Hn Hs He Hpre. rewrite get_protocol_name_spec, Hn.
  by rewrite protocol_of_first_match.
Qed.

Lemma get_protocol_name_first_match_witness :
  get_protocol_name
    ([("__name__", PyOther); ("AF_INET", PyInt 2); ("IPPROTO_ICMP", PyInt 1)]
     ++ ("IPPROTO_IP", PyInt 0) :: [("IPPROTO_HOPOPTS", PyInt 0)]) "0" sample_world
  = (Ok (PyStr (List.last (Py.split_on "_" (Py.lower "IPPROTO_IP")) "")), sample_world).
Proof.
  apply (get_protocol_name_first_match
           [("__name__", PyOther); ("AF_INET", PyInt 2); ("IPPROTO_ICMP", PyInt 1)]
           "IPPROTO_IP" (PyInt 0) [("IPPROTO_HOPOPTS", PyInt 0)] "0" 0 sample_world).
  - reflexivity.
  - reflexivity.
  - reflexivity.
  - repeat constructor.
Defined.

(** X2. Input that [int()] rejects gives ["unknown"] and one warning in the
    process log, provided [vars(socket)] has an [IPPROTO_] name; with no such
    name [int()] is never called and every input gives [None], silently. *)
Theorem get_protocol_name_not_a_number
    (sv : list (string * pyobj)) (pn : string) (w : world) :
  (Py.int pn = None → has_protocols sv = true →
   get_protocol_name sv pn w
   = (Ok (PyStr "unknown"),
      World (files w) (log w ++ [(WARNING, "Unknown protocol number: " +:+ pn)])))
  ∧ (has_protocols sv = false → get_protocol_name sv pn w = (Ok PyNone, w)).
Proof.
  rewrite get_protocol_name_spec. split.
  - by intros -> ->.
  - intros Hp. rewrite Hp. destruct (Py.int pn) as [n|]; [|done].
    f_equal. f_equal. clear -Hp. unfold has_protocols in Hp.
    induction sv as [|[name number] sv IH]; simpl in *; [done|].
    apply orb_false_iff in Hp as [-> Hp]. simpl. by apply IH.
Qed.

Lemma get_protocol_name_not_a_number_witness :
  get_protocol_name linux_socket_vars "-" sample_world
  = (Ok (PyStr "unknown"),
     World (files sample_world)
       (log sample_world ++ [(WARNING, "Unknown protocol number: " +:+ "-")]))
  ∧ get_protocol_name [("AF_INET", PyInt 2)] "-" sample_world = (Ok PyNone, sample_world).
Proof.
  split.
  - apply (proj1 (get_protocol_name_not_a_number linux_socket_vars "-" sample_world));
      reflexivity.
  - apply (proj2 (get_protocol_name_not_a_number [("AF_INET", PyInt 2)] "-" sample_world)).
    reflexivity.
Defined.

(** X3. [get_protocol_name] never raises, whatever the table and the input,
    never changes a file, and adds at most its one warning to the process
    log. *)
Theorem get_protocol_name_never_raises
    (sv : list (string * pyobj)) (pn : string) (w : world) :
  ∃ v w', get_protocol_name sv pn w = (Ok v, w')
    ∧ files w' = files w
    ∧ (log w' = log w
       ∨ log w' = log w ++ [(WARNING, "Unknown protocol number: " +:+ pn)]).
Proof.
  rewrite get_protocol_name_spec. destruct (Py.int pn); [eauto 6|].
  destruct (has_protocols sv); eauto 6.
Qed.

(** X4. The answer depends on the protocol number only through its integer
    value: two strings that [int()] reads as the same number (["6"], ["06"],
    [" +6 "], ...) resolve to the same name and log nothing. *)
Theorem get_protocol_name_by_value
    (sv : list (string * pyobj)) (pn1 pn2 : string) (n : Z) (w : world) :
  Py.int pn1 = Some n → Py.int pn2 = Some n →
  get_protocol_name sv pn1 w = get_protocol_name sv pn2 w
  ∧ (get_protocol_name sv pn1 w).2 = w.
Proof.
  intros H1 H2. rewrite !get_protocol_name_spec, H1, H2. done.
Qed.

Lemma get_protocol_name_by_value_witness :
  get_protocol_name linux_socket_vars "6" sample_world
  = get_protocol_name linux_socket_vars " +0_6 " sample_world
  ∧ (get_protocol_name linux_socket_vars "6" sample_world).2 = sample_world.
Proof.
  apply (get_protocol_name_by_value linux_socket_vars "6" " +0_6 " 6 sample_world);
    reflexivity.
Defined.

(** ** [load_lookup_table] *)

(** X6. The first row of the file is never read as data, whatever it holds:
    the table returned is built from the rows after it alone, so a file that
    starts with a data row loses that row. Loading changes no file and
    records the size of the table in the process log. *)
Theorem load_lookup_table_ignores_first_row
    (csv_reader : string → list (list string)) (lf : string) (w : world)
    (text : string) (h : string) (header : list string) (rows : list (list string)) :
  files w !! lf = Some text →
  csv_reader text = (h :: header) :: rows →
  load_lookup_table csv_reader lf w
  = (Ok (foldl store_row ∅ rows),
     World (files w)
       (log w ++ [(INFO, "Loaded " +:+ pretty (size (foldl store_row ∅ rows))
                         +:+ " mappings from the lookup table.")])).
Proof.
  intros Hf Hc. by rewrite load_lookup_table_spec, Hf, Hc.
Qed.

Lemma load_lookup_table_ignores_first_row_witness :
  load_lookup_table plain_csv_reader "lookup_table.csv" headerless_world
  = (Ok (foldl store_row ∅ [["25"; "tcp"; "mail"]]),
     World (files headerless_world)
       (log headerless_world
        ++ [(INFO, "Loaded " +:+ pretty (size (foldl store_row ∅ [["25"; "tcp"; "mail"]]))
                   +:+ " mappings from the lookup table.")])).
Proof.
  apply (load_lookup_table_ignores_first_row plain_csv_reader "lookup_table.csv"
           headerless_world (lines_text ["80,tcp,web"; "25,tcp,mail"])
           "80" ["tcp"; "web"] [["25"; "tcp"; "mail"]]).
  - reflexivity.
  - reflexivity.
Defined.

(** *** Normal form of the stored keys and tags *)

Lemma lower_char_idemp c : Py.lower_char (Py.lower_char c) = Py.lower_char c.
Proof. destruct c as [[] [] [] [] [] [] [] []]; reflexivity. Qed.

Lemma lower_idemp s : Py.lower (Py.lower s) = Py.lower s.
Proof.
  induction s as [|c s IH]; simpl; [done|]. by rewrite lower_char_idemp, IH.
Qed.

Lemma rstrip_by_idemp sp s : Py.rstrip_by sp (Py.rstrip_by sp s) = Py.rstrip_by sp s.
Proof.
  induction s as [|c s IH]; simpl; [done|].
  destruct (sp c && Py.is_empty (Py.rstrip_by sp s)) eqn:Hc; simpl; [done|].
  by rewrite IH, Hc.
Qed.

Lemma lstrip_by_head sp s :
  Py.lstrip_by sp s = "" ∨ ∃ c r, Py.lstrip_by sp s = String c r ∧ sp c = false.
Proof.
  induction s as [|c s IH]; simpl; [by left|].
  destruct (sp c) eqn:Hc; [exact IH|]. right. eauto.
Qed.

Lemma strip_idemp s : Py.strip (Py.strip s) = Py.strip s.
Proof.
  unfold Py.strip.
  destruct (lstrip_by_head Py.isspace s) as [->|(c & r & -> & Hc)]; [done|].
  simpl. rewrite Hc. simpl. rewrite Hc. simpl. rewrite Hc. simpl.
  by rewrite rstrip_by_idemp.
Qed.

Lemma row_entry_normal row key tag :
  row_entry row = Some (key, tag) → normal_entry key tag.
Proof.
  unfold row_entry. destruct row as [|c0 [|c1 [|c2 rest]]]; try done.
  destruct (forallb blank _); [done|]. intros [= <- <-].
  split; [apply strip_idemp|]. split; [apply strip_idemp|].
  eexists. split; [done|]. apply lower_idemp.
Qed.

Lemma foldl_store_row_normal (rows : list (list string)) (lt : lookup_table_t) :
  (∀ key tag, lt !! key = Some tag → normal_entry key tag) →
  ∀ key tag, foldl store_row lt rows !! key = Some tag → normal_entry key tag.
Proof.
  revert lt. induction rows as [|row rows IH]; intros lt Hlt; simpl; [done|].
  apply IH. intros key tag. unfold store_row.
  destruct (row_entry row) as [[k t]|] eqn:He; [|apply Hlt].
  destruct (decide (k = key)) as [->|Hne].
  - rewrite lookup_insert_eq. intros [= <-]. by eapply row_entry_normal.
  - rewrite lookup_insert_ne by done. apply Hlt.
Qed.

(** X7. Every entry of a table that [load_lookup_table] returns is in
    normal form: the port and the tag carry no surrounding white space, and
    the protocol is a lowercase string. In particular no key has the protocol
    [None], so a lookup for a record whose protocol resolved to [None] always
    misses. *)
Theorem load_lookup_table_normal_entries
    (csv_reader : string → list (list string)) (lf : string) (w w' : world)
    (lt : lookup_table_t) :
  load_lookup_table csv_reader lf w = (Ok lt, w') →
  (∀ key tag, lt !! key = Some tag →
     Py.strip key.1 = key.1 ∧ Py.strip tag = tag
     ∧ ∃ protocol, key.2 = PyStr protocol ∧ Py.lower protocol = protocol)
  ∧ (∀ port, lt !! (port, PyNone) = None).
Proof.
  rewrite load_lookup_table_spec.
  destruct (files w !! lf) as [text|]; [|done].
  destruct (csv_reader text) as [|[|h header] rows]; try done.
  intros [= <- _].
  assert (∀ key tag, lookup_of_rows rows !! key = Some tag → normal_entry key tag)
    as Hn by (apply foldl_store_row_normal; intros ??; by rewrite lookup_empty).
  split; [exact Hn|]. intros port.
  destruct (lookup_of_rows rows !! (port, PyNone)) as [tag|] eqn:Hl; [|done].
  destruct (Hn _ _ Hl) as (_ & _ & p & Hp & _). done.
Qed.

Lemma load_lookup_table_normal_entries_witness :
  (∀ key tag,
     ({[ ("80", PyStr "tcp") := "www"; ("25", PyStr "tcp") := "mail" ]} : lookup_table_t)
       !! key = Some tag →
     Py.strip key.1 = key.1 ∧ Py.strip tag = tag
     ∧ ∃ protocol, key.2 = PyStr protocol ∧ Py.lower protocol = protocol)
  ∧ (∀ port,
       ({[ ("80", PyStr "tcp") := "www"; ("25", PyStr "tcp") := "mail" ]} : lookup_table_t)
         !! (port, PyNone) = None).
Proof.
  apply (load_lookup_table_normal_entries plain_csv_reader "lookup_table.csv"
           sample_world
           (load_lookup_table plain_csv_reader "lookup_table.csv" sample_world).2).
  vm_compute. reflexivity.
Defined.

(** ** [process_flow_logs] *)

Lemma get_protocol_name_resolve sv pn w :
  ∃ w', get_protocol_name sv pn w = (Ok (resolve sv pn), w') ∧ files w' = files w.
Proof.
  rewrite get_protocol_name_spec. unfold resolve.
  destruct (Py.int pn); [eauto|]. destruct (has_protocols sv); eauto.
Qed.

Lemma line_key_short sv line :
  (length (Py.split line) < 14)%nat → line_key sv line = None.
Proof. intros H. unfold line_key. by rewrite decide_False by lia. Qed.

Lemma line_key_exact sv line dstport pn :
  length (Py.split line) = 14%nat →
  Py.split line !! 6%nat = Some dstport →
  Py.split line !! 7%nat = Some pn →
  line_key sv line = Some (dstport, resolve sv pn).
Proof.
  intros H H6 H7. unfold line_key. by rewrite decide_True, H6, H7 by done.
Qed.

Lemma process_line_count_line (sv : list (string * pyobj)) (lt : lookup_table_t) (line : string)
    (counts : tag_counts_t * port_protocol_counts_t) (w : world) :
  (length (Py.split line) ≤ 14)%nat →
  ∃ w', process_line sv lt line counts w = (Ok (count_line sv lt counts line), w')
        ∧ files w' = files w.
Proof.
  intros Hle. unfold count_line.
  destruct (decide (length (Py.split line) = 14)%nat) as [He|Hne].
  - destruct (nth_fields_14 _ He) as (dstport & pn & H6 & H7).
    rewrite (line_key_exact _ _ _ _ He H6 H7).
    rewrite (process_line_exact _ _ _ _ _ _ _ He H6 H7).
    destruct (get_protocol_name_resolve sv pn w) as (w' & Hg & Hf).
    rewrite (bind_Ok _ _ _ _ _ Hg). eauto.
  - rewrite line_key_short by lia. rewrite process_line_short by lia. eauto.
Qed.

Lemma for_each_lines_fold (sv : list (string * pyobj)) (lt : lookup_table_t) (lines : list string)
    (counts : tag_counts_t * port_protocol_counts_t) (w : world) :
  Forall (λ line, length (Py.split line) ≤ 14)%nat lines →
  ∃ w', for_each lines (process_line sv lt) counts w
        = (Ok (foldl (count_line sv lt) counts lines), w')
        ∧ files w' = files w.
Proof.
  intros H. revert counts w.
  induction H as [|line lines Hl H IH]; intros counts w; simpl; [eauto|].
  destruct (process_line_count_line sv lt line counts w Hl) as (w' & Hp & Hf).
  rewrite (bind_Ok _ _ _ _ _ Hp).
  destruct (IH (count_line sv lt counts line) w') as (w'' & -> & Hf').
  exists w''. split; congruence.
Qed.

Lemma process_flow_logs_fold (sv : list (string * pyobj)) (ff : string) (lt : lookup_table_t) (w : world) (text : string) :
  files w !! ff = Some text →
  Forall (λ line, length (Py.split line) ≤ 14)%nat (Py.file_lines text) →
  ∃ w', process_flow_logs sv ff lt w
        = (Ok (foldl (count_line sv lt) ([], []) (Py.file_lines text)), w')
        ∧ files w' = files w.
Proof.
  intros Hf Hall. rewrite (process_flow_logs_existing _ _ _ _ _ Hf).
  destruct (for_each_lines_fold sv lt _ ([], []) w Hall) as (w' & Hr & Hw).
  rewrite (bind_Ok _ _ _ _ _ Hr). unfold logging, mbind, M_bind, mret, M_ret.
  simpl. eauto.
Qed.

Lemma lines_split (lines : list string) :
  Forall (λ line, length (Py.split line) ≤ 14)%nat lines
  ∨ Exists (λ line, 14 < length (Py.split line))%nat lines.
Proof.
  induction lines as [|line lines [IH|IH]].
  - left. constructor.
  - destruct (decide (length (Py.split line) ≤ 14)%nat).
    + left. by constructor.
    + right. apply Exists_cons_hd. lia.
  - right. by apply Exists_cons_tl.
Qed.

Lemma process_flow_logs_trichotomy
    (sv : list (string * pyobj)) (ff : string) (lt : lookup_table_t) (w : world) :
  ((∃ msg, (process_flow_logs sv ff lt w).1 = Raise (Exn FileNotFoundError msg))
   ↔ files w !! ff = None)
  ∧ ((process_flow_logs sv ff lt w).1 = Raise too_many_values
     ↔ ∃ text, files w !! ff = Some text
               ∧ Exists (λ line, 14 < length (Py.split line))%nat (Py.file_lines text))
  ∧ ((∃ counts, (process_flow_logs sv ff lt w).1 = Ok counts)
     ↔ ∃ text, files w !! ff = Some text
               ∧ Forall (λ line, length (Py.split line) ≤ 14)%nat (Py.file_lines text))
  ∧ files (process_flow_logs sv ff lt w).2 = files w.
Proof.
  destruct (files w !! ff) as [text|] eqn:Hf.
  - destruct (lines_split (Py.file_lines text)) as [Hall|Hex].
    + destruct (process_flow_logs_fold sv ff lt w text Hf Hall) as (w' & Hr & Hw).
      rewrite Hr. simpl. split; [split; [intros [? ?]; done|done]|].
      split; [split; [done|]|].
      { intros (t & [= <-] & Hex). exfalso.
        apply Exists_exists in Hex as (line & Hin & Hlong).
        rewrite Forall_forall in Hall. specialize (Hall line Hin). simpl in *. lia. }
      split; [|done]. split; eauto.
    + destruct (process_flow_logs_too_many_fields sv ff lt w text Hf Hex)
        as (_ & w' & Hr & _ & Hw).
      rewrite Hr. simpl. split; [split; [intros [? ?]; done|done]|].
      split; [split; eauto|]. split; [|done]. split; [intros [? ?]; done|].
      intros (t & [= <-] & Hall). exfalso.
      apply Exists_exists in Hex as (line & Hin & Hlong).
      rewrite Forall_forall in Hall. specialize (Hall line Hin). simpl in *. lia.
  - rewrite process_flow_logs_missing by done. simpl.
    split; [split; eauto|]. split; [split; [done|intros (?&?&?); done]|].
    split; [|done]. split; [intros [? ?]; done|intros (?&?&?); done].
Qed.

Lemma dict_incr_keys `{EqDecision K} (k : K) (d : list (K * Z)) :
  (dict_incr k d).*1 = if decide (k ∈ d.*1) then d.*1 else d.*1 ++ [k].
Proof.
  induction d as [|[k0 n] d IH]; [done|]. simpl.
  destruct (decide (k = k0)) as [->|Hne]; csimpl.
  - rewrite decide_True; [done|]. left.
  - rewrite IH. destruct (decide (k ∈ d.*1)) as [Hin|Hnin].
    + rewrite decide_True; [done|]. by right.
    + rewrite decide_False; [done|]. by intros [?|?]%elem_of_cons.
Qed.

Lemma dict_incr_NoDup `{EqDecision K} (k : K) (d : list (K * Z)) :
  NoDup d.*1 → NoDup (dict_incr k d).*1.
Proof.
  intros Hd. rewrite dict_incr_keys. destruct (decide (k ∈ d.*1)); [done|].
  apply NoDup_app. split; [done|]. split; [|apply NoDup_singleton].
  intros x Hx Hs. apply list_elem_of_singleton in Hs as ->. done.
Qed.

Lemma dict_incr_positive `{EqDecision K} (k : K) (d : list (K * Z)) :
  Forall (λ x, 1 ≤ x.2) d → Forall (λ x, 1 ≤ x.2) (dict_incr k d).
Proof.
  induction 1 as [|[k0 n] d Hx Hd IH]; simpl.
  - constructor; [simpl; lia|constructor].
  - destruct (decide (k = k0)); constructor; simpl in *; try done; lia.
Qed.

Lemma dict_incr_total `{EqDecision K} (k : K) (d : list (K * Z)) :
  dict_total (dict_incr k d) = dict_total d + 1.
Proof.
  unfold dict_total. induction d as [|[k0 n] d IH]; simpl; [done|].
  destruct (decide (k = k0)); simpl; lia.
Qed.

Section counting.
Context (sv : list (string * pyobj)) (lt : lookup_table_t).

Lemma foldl_count_line_counts (lines : list string)
    (counts : tag_counts_t * port_protocol_counts_t) :
  (∀ key, dict_count key (foldl (count_line sv lt) counts lines).2
          = dict_count key counts.2 + lines_with_key sv key lines)
  ∧ (∀ tag, dict_count tag (foldl (count_line sv lt) counts lines).1
            = dict_count tag counts.1 + lines_with_tag sv lt tag lines).
Proof.
  revert counts. unfold lines_with_key, lines_with_tag.
  induction lines as [|line lines IH]; intros counts; simpl.
  - split; intros; lia.
  - destruct (IH (count_line sv lt counts line)) as [IH1 IH2].
    split; [intros key; rewrite IH1|intros tag; rewrite IH2];
      rewrite filter_cons; unfold count_line, line_tag;
      destruct (line_key sv line) as [k|]; simpl;
      rewrite ?dict_count_incr; repeat case_decide; simplify_eq; simpl; lia.
Qed.

Lemma foldl_count_line_shape (lines : list string)
    (counts : tag_counts_t * port_protocol_counts_t) :
  NoDup counts.1.*1 → NoDup counts.2.*1 →
  Forall (λ x, 1 ≤ x.2) counts.1 → Forall (λ x, 1 ≤ x.2) counts.2 →
  let counts' := foldl (count_line sv lt) counts lines in
  NoDup counts'.1.*1 ∧ NoDup counts'.2.*1
  ∧ Forall (λ x, 1 ≤ x.2) counts'.1 ∧ Forall (λ x, 1 ≤ x.2) counts'.2.
Proof.
  revert counts. induction lines as [|line lines IH]; intros counts ????; simpl.
  - done.
  - apply IH; unfold count_line; destruct (line_key sv line); simpl;
      auto using dict_incr_NoDup, dict_incr_positive.
Qed.

Lemma foldl_count_line_totals (lines : list string)
    (counts : tag_counts_t * port_protocol_counts_t) :
  let counts' := foldl (count_line sv lt) counts lines in
  dict_total counts'.1 = dict_total counts.1 + counted_lines lines
  ∧ dict_total counts'.2 = dict_total counts.2 + counted_lines lines.
Proof.
  revert counts. unfold counted_lines.
  induction lines as [|line lines IH]; intros counts; simpl.
  - split; lia.
  - destruct (IH (count_line sv lt counts line)) as [IH1 IH2].
    rewrite IH1, IH2, filter_cons. unfold count_line, line_key.
    destruct (decide (length (Py.split line) = 14%nat)) as [He|Hne]; simpl.
    + destruct (nth_fields_14 _ He) as (dstport & pn & -> & ->). simpl.
      rewrite !dict_incr_total. lia.
    + lia.
Qed.

Lemma foldl_count_line_tags (lines : list string)
    (counts : tag_counts_t * port_protocol_counts_t) :
  Forall (λ tag, tag = "Untagged" ∨ ∃ key, lt !! key = Some tag) counts.1.*1 →
  Forall (λ tag, tag = "Untagged" ∨ ∃ key, lt !! key = Some tag)
    (foldl (count_line sv lt) counts lines).1.*1.
Proof.
  revert counts. induction lines as [|line lines IH]; intros counts H; simpl; [done|].
  apply IH. unfold count_line. destruct (line_key sv line) as [k|]; simpl; [|done].
  rewrite dict_incr_keys. destruct (decide (_ ∈ _)); [done|].
  apply Forall_app. split; [done|]. constructor; [|constructor].
  destruct (lt !! k) as [tag|] eqn:Hk; simpl; eauto.
Qed.

Lemma foldl_count_line_keys (lines : list string)
    (counts : tag_counts_t * port_protocol_counts_t) (key : string * pyval) :
  key ∈ (foldl (count_line sv lt) counts lines).2.*1
  ↔ key ∈ counts.2.*1 ∨ ∃ line, line ∈ lines ∧ line_key sv line = Some key.
Proof.
  revert counts. induction lines as [|line lines IH]; intros counts; simpl.
  - split; [by left|]. intros [?|(l & Hl & _)]; [done|]. by apply elem_of_nil in Hl.
  - rewrite IH. unfold count_line.
    destruct (line_key sv line) as [k|] eqn:Hk; simpl.
    + rewrite dict_incr_keys. split.
      * intros [Hin|(l & Hl & Hkey)].
        -- destruct (decide (k ∈ counts.2.*1)); [by left|].
           apply elem_of_app in Hin as [?|Hs]; [by left|].
           apply list_elem_of_singleton in Hs as ->.
           right. exists line. split; [left|done].
        -- right. exists l. split; [by right|done].
      * intros [Hin|(l & Hl & Hkey)].
        -- left. destruct (decide (k ∈ counts.2.*1)); [done|].
           apply elem_of_app. by left.
        -- apply elem_of_cons in Hl as [->|Hl].
           ++ left. assert (k = key) as -> by congruence.
              destruct (decide (key ∈ counts.2.*1)); [done|].
              apply elem_of_app. right. apply list_elem_of_singleton. done.
           ++ right. eauto.
    + split.
      * intros [?|(l & Hl & Hkey)]; [by left|]. right. exists l. split; [by right|done].
      * intros [?|(l & Hl & Hkey)]; [by left|].
        apply elem_of_cons in Hl as [->|Hl]; [congruence|]. right. eauto.
Qed.

End counting.

(** Discharges [Forall P (Py.file_lines text)] for a closed [text] by
    evaluating the lines. *)
Ltac lines_at_most_14 :=
  match goal with
  | |- context [Py.file_lines ?t] =>
      let l := eval vm_compute in (Py.file_lines t) in
      change (Py.file_lines t) with l
  end;
  repeat (apply Forall_cons; split; [vm_compute; lia|]); constructor.

Lemma count_line_short (sv : list (string * pyobj)) (lt : lookup_table_t)
    (counts : tag_counts_t * port_protocol_counts_t) (line : string) :
  (length (Py.split line) < 14)%nat → count_line sv lt counts line = counts.
Proof. intros H. unfold count_line. by rewrite line_key_short. Qed.

Lemma lines_with_key_insert (sv : list (string * pyobj)) (key : string * pyval)
    (pre post : list string) (line : string) :
  lines_with_key sv key (pre ++ line :: post)
  = lines_with_key sv key (pre ++ post)
    + if decide (line_key sv line = Some key) then 1 else 0.
Proof.
  unfold lines_with_key. rewrite !filter_app, filter_cons, !length_app.
  destruct (decide (line_key sv line = Some key)); simpl; lia.
Qed.

Lemma lines_with_tag_insert (sv : list (string * pyobj)) (lt : lookup_table_t)
    (tag : string) (pre post : list string) (line : string) :
  lines_with_tag sv lt tag (pre ++ line :: post)
  = lines_with_tag sv lt tag (pre ++ post)
    + if decide (line_tag sv lt line = Some tag) then 1 else 0.
Proof.
  unfold lines_with_tag. rewrite !filter_app, filter_cons, !length_app.
  destruct (decide (line_tag sv lt line = Some tag)); simpl; lia.
Qed.

(** C2. In a flow log that exists and has no line of more than 14 fields,
    [process_flow_logs] counts every line on its own. Take any line of the
    file and compare the maps returned with those returned for the same file
    without that line. When the line has exactly 14 fields, the count of the
    tag the lookup table gives for (destination port, resolved protocol
    name), ["Untagged"] when the table has no such key, is greater by exactly
    one, the count of that (port, name) pair is greater by exactly one, and
    every other count of the two maps is the same. When the line has fewer
    than 14 fields, the two maps are the same and nothing is raised. *)
Theorem process_flow_logs_counts_each_line
    (sv : list (string * pyobj)) (ff : string) (lt : lookup_table_t)
    (w w0 : world) (text text0 : string)
    (pre post : list string) (line : string) :
  files w !! ff = Some text →
  Py.file_lines text = pre ++ line :: post →
  files w0 !! ff = Some text0 →
  Py.file_lines text0 = pre ++ post →
  Forall (λ l, length (Py.split l) ≤ 14)%nat (pre ++ post) →
  ∃ (tag_counts0 : tag_counts_t) (port_protocol_counts0 : port_protocol_counts_t) w0',
    process_flow_logs sv ff lt w0 = (Ok (tag_counts0, port_protocol_counts0), w0')
    ∧ (length (Py.split line) = 14%nat →
       ∃ dstport protocol_number protocol_name
         (tag_counts : tag_counts_t) (port_protocol_counts : port_protocol_counts_t) w',
         Py.split line !! 6%nat = Some dstport
         ∧ Py.split line !! 7%nat = Some protocol_number
         ∧ (∀ w1, (get_protocol_name sv protocol_number w1).1 = Ok protocol_name)
         ∧ process_flow_logs sv ff lt w = (Ok (tag_counts, port_protocol_counts), w')
         ∧ (∀ t, dict_count t tag_counts = dict_count t tag_counts0 +
              if decide (t = default "Untagged" (lt !! (dstport, protocol_name)))
              then 1 else 0)
         ∧ (∀ k, dict_count k port_protocol_counts = dict_count k port_protocol_counts0 +
              if decide (k = (dstport, protocol_name)) then 1 else 0))
    ∧ ((length (Py.split line) < 14)%nat →
       ∃ w', process_flow_logs sv ff lt w
             = (Ok (tag_counts0, port_protocol_counts0), w')).
Proof.
  intros Hf Hl Hf0 Hl0 Hall.
  destruct (process_flow_logs_fold sv ff lt w0 text0 Hf0) as (w0' & Hr0 & _);
    [by rewrite Hl0|]. rewrite Hl0 in Hr0.
  destruct (foldl_count_line_counts sv lt (pre ++ post) ([], [])) as [K0 T0].
  destruct (foldl (count_line sv lt) ([], []) (pre ++ post)) as [tc0 ppc0] eqn:Hc0.
  simpl in K0, T0.
  exists tc0, ppc0, w0'. split; [done|].
  assert (Hall' : (length (Py.split line) ≤ 14)%nat →
                  Forall (λ l, length (Py.split l) ≤ 14)%nat (Py.file_lines text)).
  { intros Hle. rewrite Hl. apply Forall_app in Hall as [Hp Hq].
    apply Forall_app. split; [done|]. by constructor. }
  split.
  - intros He. destruct (nth_fields_14 _ He) as (dstport & pn & H6 & H7).
    destruct (process_flow_logs_fold sv ff lt w text Hf) as (w' & Hr & _);
      [apply Hall'; lia|]. rewrite Hl in Hr.
    destruct (foldl_count_line_counts sv lt (pre ++ line :: post) ([], [])) as [K T].
    destruct (foldl (count_line sv lt) ([], []) (pre ++ line :: post))
      as [tc ppc] eqn:Hc.
    simpl in K, T.
    pose proof (line_key_exact sv line dstport pn He H6 H7) as Hkey.
    exists dstport, pn, (resolve sv pn), tc, ppc, w'.
    split; [done|]. split; [done|]. split.
    { intros w1. by destruct (get_protocol_name_resolve sv pn w1) as (? & -> & _). }
    split; [done|]. split.
    + intros t. rewrite T, T0, lines_with_tag_insert.
      unfold line_tag. rewrite Hkey. simpl.
      repeat case_decide; simplify_eq; lia.
    + intros k. rewrite K, K0, lines_with_key_insert. rewrite Hkey.
      repeat case_decide; simplify_eq; lia.
  - intros Hs.
    destruct (process_flow_logs_fold sv ff lt w text Hf) as (w' & Hr & _);
      [apply Hall'; lia|]. rewrite Hl in Hr.
    exists w'. rewrite Hr. do 2 f_equal.
    rewrite foldl_app. simpl. rewrite count_line_short by done.
    by rewrite <- foldl_app, Hc0.
Qed.

Lemma process_flow_logs_counts_each_line_witness :
  (∃ (tag_counts0 : tag_counts_t) (port_protocol_counts0 : port_protocol_counts_t) w0',
     process_flow_logs linux_socket_vars "flow_log.log"
       {[ ("80", PyStr "tcp") := "web" ]} one_line_world
     = (Ok (tag_counts0, port_protocol_counts0), w0')
     ∧ ∃ dstport protocol_number protocol_name
         (tag_counts : tag_counts_t) (port_protocol_counts : port_protocol_counts_t) w',
         Py.split "2 123456789012 eni-0a1b2c3d 10.0.1.201 198.51.100.2 443 9999 17 25 20000 1620140761 1620140821 ACCEPT OK"
           !! 6%nat = Some dstport
         ∧ Py.split "2 123456789012 eni-0a1b2c3d 10.0.1.201 198.51.100.2 443 9999 17 25 20000 1620140761 1620140821 ACCEPT OK"
           !! 7%nat = Some protocol_number
         ∧ (∀ w1, (get_protocol_name linux_socket_vars protocol_number w1).1
                  = Ok protocol_name)
         ∧ process_flow_logs linux_socket_vars "flow_log.log"
             {[ ("80", PyStr "tcp") := "web" ]} two_line_world
           = (Ok (tag_counts, port_protocol_counts), w')
         ∧ (∀ t, dict_count t tag_counts = dict_count t tag_counts0 +
              if decide (t = default "Untagged"
                               (({[ ("80", PyStr "tcp") := "web" ]} : lookup_table_t)
                                  !! (dstport, protocol_name)))
              then 1 else 0)
         ∧ (∀ k, dict_count k port_protocol_counts = dict_count k port_protocol_counts0 +
              if decide (k = (dstport, protocol_name)) then 1 else 0))
  ∧ (∃ (tag_counts0 : tag_counts_t) (port_protocol_counts0 : port_protocol_counts_t) w0' w',
       process_flow_logs linux_socket_vars "flow_log.log"
         {[ ("80", PyStr "tcp") := "web" ]} one_line_world
       = (Ok (tag_counts0, port_protocol_counts0), w0')
       ∧ process_flow_logs linux_socket_vars "flow_log.log"
           {[ ("80", PyStr "tcp") := "web" ]} short_line_added_world
         = (Ok (tag_counts0, port_protocol_counts0), w')).
Proof.
  split.
  - destruct (process_flow_logs_counts_each_line linux_socket_vars "flow_log.log"
             {[ ("80", PyStr "tcp") := "web" ]} two_line_world one_line_world
             (lines_text
                ["2 123456789012 eni-0a1b2c3d 10.0.1.201 198.51.100.2 443 80 6 25 20000 1620140761 1620140821 ACCEPT OK";
                 "2 123456789012 eni-0a1b2c3d 10.0.1.201 198.51.100.2 443 9999 17 25 20000 1620140761 1620140821 ACCEPT OK"])
             (lines_text
                ["2 123456789012 eni-0a1b2c3d 10.0.1.201 198.51.100.2 443 80 6 25 20000 1620140761 1620140821 ACCEPT OK"])
             ["2 123456789012 eni-0a1b2c3d 10.0.1.201 198.51.100.2 443 80 6 25 20000 1620140761 1620140821 ACCEPT OK"]
             []
             "2 123456789012 eni-0a1b2c3d 10.0.1.201 198.51.100.2 443 9999 17 25 20000 1620140761 1620140821 ACCEPT OK")
      as (tc0 & ppc0 & w0' & H0 & H14 & _).
    + reflexivity.
    + vm_compute. reflexivity.
    + reflexivity.
    + vm_compute. reflexivity.
    + repeat (apply Forall_cons; split; [vm_compute; lia|]). constructor.
    + exists tc0, ppc0, w0'. split; [exact H0|]. apply H14. vm_compute. reflexivity.
  - destruct (process_flow_logs_counts_each_line linux_socket_vars "flow_log.log"
             {[ ("80", PyStr "tcp") := "web" ]} short_line_added_world one_line_world
             (lines_text
                ["2 123456789012 eni-0a1b2c3d 10.0.1.201 198.51.100.2 443 80 6 25 20000 1620140761 1620140821 ACCEPT OK";
                 "short line"])
             (lines_text
                ["2 123456789012 eni-0a1b2c3d 10.0.1.201 198.51.100.2 443 80 6 25 20000 1620140761 1620140821 ACCEPT OK"])
             ["2 123456789012 eni-0a1b2c3d 10.0.1.201 198.51.100.2 443 80 6 25 20000 1620140761 1620140821 ACCEPT OK"]
             []
             "short line")
      as (tc0 & ppc0 & w0' & H0 & _ & Hshort).
    + reflexivity.
    + vm_compute. reflexivity.
    + reflexivity.
    + vm_compute. reflexivity.
    + repeat (apply Forall_cons; split; [vm_compute; lia|]). constructor.
    + destruct Hshort as [w' Hw']; [vm_compute; lia|].
      exists tc0, ppc0, w0', w'. split; [exact H0|exact Hw'].
Defined.

(** The three sample files. *)
Example one_more_line_one_more_count :
  (process_flow_logs linux_socket_vars "flow_log.log"
     {[ ("80", PyStr "tcp") := "web" ]} one_line_world).1
  = Ok ([("web", 1)], [(("80", PyStr "tcp"), 1)])
  ∧ (process_flow_logs linux_socket_vars "flow_log.log"
       {[ ("80", PyStr "tcp") := "web" ]} two_line_world).1
    = Ok ([("web", 1); ("Untagged", 1)],
          [(("80", PyStr "tcp"), 1); (("9999", PyStr "udp"), 1)])
  ∧ (process_flow_logs linux_socket_vars "flow_log.log"
       {[ ("80", PyStr "tcp") := "web" ]} short_line_added_world).1
    = Ok ([("web", 1)], [(("80", PyStr "tcp"), 1)]).
Proof. repeat split; vm_compute; reflexivity. Qed.

(** X9. When the flow log exists and no line has more than 14 fields, the
    count maps returned are the exact tallies of the file: the count of a
    (port, protocol name) pair is the number of 14-field lines whose seventh
    field is that port and whose eighth field resolves to that name, and the
    count of a tag is the number of 14-field lines whose pair the lookup table
    maps to that tag (["Untagged"] when it maps it to nothing). Keys and tags
    that no line gives have count 0. *)
Theorem process_flow_logs_counts
    (sv : list (string * pyobj)) (ff : string) (lt : lookup_table_t)
    (w : world) (text : string) :
  files w !! ff = Some text →
  Forall (λ line, length (Py.split line) ≤ 14)%nat (Py.file_lines text) →
  ∃ (tag_counts : tag_counts_t) (port_protocol_counts : port_protocol_counts_t) w',
    process_flow_logs sv ff lt w = (Ok (tag_counts, port_protocol_counts), w')
    ∧ (∀ key, dict_count key port_protocol_counts
              = lines_with_key sv key (Py.file_lines text))
    ∧ (∀ tag, dict_count tag tag_counts
              = lines_with_tag sv lt tag (Py.file_lines text))
    ∧ (∀ pn w0, (get_protocol_name sv pn w0).1 = Ok (resolve sv pn)).
Proof.
  intros Hf Hall.
  destruct (process_flow_logs_fold sv ff lt w text Hf Hall) as (w' & Hr & _).
  destruct (foldl_count_line_counts sv lt (Py.file_lines text) ([], [])) as [H1 H2].
  destruct (foldl (count_line sv lt) ([], []) (Py.file_lines text)) as [tc ppc] eqn:Hc.
  exists tc, ppc, w'. split; [done|]. simpl in H1, H2.
  split; [intros key; rewrite H1; lia|]. split; [intros tag; rewrite H2; lia|].
  intros pn w0. by destruct (get_protocol_name_resolve sv pn w0) as (? & -> & _).
Qed.

Lemma process_flow_logs_counts_witness :
  ∃ (tag_counts : tag_counts_t) (port_protocol_counts : port_protocol_counts_t) w',
    process_flow_logs linux_socket_vars "flow_log.log"
      {[ ("80", PyStr "tcp") := "web" ]} sample_world
    = (Ok (tag_counts, port_protocol_counts), w')
    ∧ (∀ key, dict_count key port_protocol_counts
              = lines_with_key linux_socket_vars key (Py.file_lines sample_flow))
    ∧ (∀ tag, dict_count tag tag_counts
              = lines_with_tag linux_socket_vars {[ ("80", PyStr "tcp") := "web" ]} tag
                  (Py.file_lines sample_flow))
    ∧ (∀ pn w0, (get_protocol_name linux_socket_vars pn w0).1
                = Ok (resolve linux_socket_vars pn)).
Proof.
  apply (process_flow_logs_counts linux_socket_vars "flow_log.log"
           {[ ("80", PyStr "tcp") := "web" ]} sample_world sample_flow).
  - reflexivity.
  - lines_at_most_14.
Defined.

Example sample_tallies :
  lines_with_key linux_socket_vars ("80", PyStr "tcp") (Py.file_lines sample_flow) = 2
  ∧ lines_with_key linux_socket_vars ("9999", PyStr "udp") (Py.file_lines sample_flow) = 1
  ∧ lines_with_tag linux_socket_vars {[ ("80", PyStr "tcp") := "web" ]} "Untagged"
      (Py.file_lines sample_flow) = 1.
Proof. repeat split; vm_compute; reflexivity. Qed.

(** X10. In the count maps returned, no key occurs twice, every count is at
    least 1, and the (port, protocol name) keys are exactly the pairs of the
    14-field lines of the file. *)
Theorem process_flow_logs_keys
    (sv : list (string * pyobj)) (ff : string) (lt : lookup_table_t)
    (w : world) (text : string) :
  files w !! ff = Some text →
  Forall (λ line, length (Py.split line) ≤ 14)%nat (Py.file_lines text) →
  ∃ (tag_counts : tag_counts_t) (port_protocol_counts : port_protocol_counts_t) w',
    process_flow_logs sv ff lt w = (Ok (tag_counts, port_protocol_counts), w')
    ∧ NoDup tag_counts.*1 ∧ NoDup port_protocol_counts.*1
    ∧ Forall (λ x, 1 ≤ x.2) tag_counts ∧ Forall (λ x, 1 ≤ x.2) port_protocol_counts
    ∧ (∀ key, key ∈ port_protocol_counts.*1
              ↔ ∃ line, line ∈ Py.file_lines text ∧ line_key sv line = Some key).
Proof.
  intros Hf Hall.
  destruct (process_flow_logs_fold sv ff lt w text Hf Hall) as (w' & Hr & _).
  destruct (foldl_count_line_shape sv lt (Py.file_lines text) ([], []))
    as (N1 & N2 & P1 & P2); try constructor.
  pose proof (foldl_count_line_keys sv lt (Py.file_lines text) ([], [])) as Hk.
  destruct (foldl (count_line sv lt) ([], []) (Py.file_lines text)) as [tc ppc] eqn:Hc.
  exists tc, ppc, w'. split; [done|]. simpl in *. do 4 (split; [done|]).
  intros key. rewrite Hk. split; [|by right].
  intros [Hin|?]; [|done]. by apply elem_of_nil in Hin.
Qed.

Lemma process_flow_logs_keys_witness :
  ∃ (tag_counts : tag_counts_t) (port_protocol_counts : port_protocol_counts_t) w',
    process_flow_logs linux_socket_vars "flow_log.log"
      {[ ("80", PyStr "tcp") := "web" ]} sample_world
    = (Ok (tag_counts, port_protocol_counts), w')
    ∧ NoDup tag_counts.*1 ∧ NoDup port_protocol_counts.*1
    ∧ Forall (λ x, 1 ≤ x.2) tag_counts ∧ Forall (λ x, 1 ≤ x.2) port_protocol_counts
    ∧ (∀ key, key ∈ port_protocol_counts.*1
              ↔ ∃ line, line ∈ Py.file_lines sample_flow
                        ∧ line_key linux_socket_vars line = Some key).
Proof.
  apply (process_flow_logs_keys linux_socket_vars "flow_log.log"
           {[ ("80", PyStr "tcp") := "web" ]} sample_world sample_flow).
  - reflexivity.
  - lines_at_most_14.
Defined.

(** X11. The counts of the two maps add up to the same number, the number
    of lines of the file with exactly 14 fields: every counted record is
    counted once under a tag and once under a (port, protocol) pair. *)
Theorem process_flow_logs_totals
    (sv : list (string * pyobj)) (ff : string) (lt : lookup_table_t)
    (w : world) (text : string) :
  files w !! ff = Some text →
  Forall (λ line, length (Py.split line) ≤ 14)%nat (Py.file_lines text) →
  ∃ (tag_counts : tag_counts_t) (port_protocol_counts : port_protocol_counts_t) w',
    process_flow_logs sv ff lt w = (Ok (tag_counts, port_protocol_counts), w')
    ∧ dict_total tag_counts = counted_lines (Py.file_lines text)
    ∧ dict_total port_protocol_counts = counted_lines (Py.file_lines text).
Proof.
  intros Hf Hall.
  destruct (process_flow_logs_fold sv ff lt w text Hf Hall) as (w' & Hr & _).
  destruct (foldl_count_line_totals sv lt (Py.file_lines text) ([], [])) as [H1 H2].
  destruct (foldl (count_line sv lt) ([], []) (Py.file_lines text)) as [tc ppc] eqn:Hc.
  exists tc, ppc, w'. split; [done|]. simpl in H1, H2. split; lia.
Qed.

Lemma process_flow_logs_totals_witness :
  ∃ (tag_counts : tag_counts_t) (port_protocol_counts : port_protocol_counts_t) w',
    process_flow_logs linux_socket_vars "flow_log.log"
      {[ ("80", PyStr "tcp") := "web" ]} sample_world
    = (Ok (tag_counts, port_protocol_counts), w')
    ∧ dict_total tag_counts = counted_lines (Py.file_lines sample_flow)
    ∧ dict_total port_protocol_counts = counted_lines (Py.file_lines sample_flow).
Proof.
  apply (process_flow_logs_totals linux_socket_vars "flow_log.log"
           {[ ("80", PyStr "tcp") := "web" ]} sample_world sample_flow).
  - reflexivity.
  - lines_at_most_14.
Defined.

(** X12. Every tag in the tag counts returned is ["Untagged"] or a tag of
    the lookup table: the processor invents no tag. *)
Theorem process_flow_logs_tags
    (sv : list (string * pyobj)) (ff : string) (lt : lookup_table_t)
    (w w' : world) (tag_counts : tag_counts_t)
    (port_protocol_counts : port_protocol_counts_t) :
  process_flow_logs sv ff lt w = (Ok (tag_counts, port_protocol_counts), w') →
  Forall (λ tag, tag = "Untagged" ∨ ∃ key, lt !! key = Some tag) tag_counts.*1.
Proof.
  intros Hr.
  destruct (proj1 (proj1 (proj2 (proj2 (process_flow_logs_trichotomy sv ff lt w))))
              (ex_intro _ _ (f_equal fst Hr))) as (text & Hf & Hall).
  destruct (process_flow_logs_fold sv ff lt w text Hf Hall) as (w'' & Hr' & _).
  rewrite Hr in Hr'. injection Hr' as Hc _.
  pose proof (foldl_count_line_tags sv lt (Py.file_lines text) ([], [])) as Ht.
  rewrite <-Hc in Ht. simpl in Ht. exact (Ht (Forall_nil_2 _)).
Qed.

Lemma process_flow_logs_tags_witness :
  Forall (λ tag, tag = "Untagged"
                 ∨ ∃ key, ({[ ("80", PyStr "tcp") := "web" ]} : lookup_table_t) !! key
                          = Some tag)
    [("web", 2); ("Untagged", 1)].*1.
Proof.
  apply (process_flow_logs_tags linux_socket_vars "flow_log.log"
           {[ ("80", PyStr "tcp") := "web" ]} sample_world
           (process_flow_logs linux_socket_vars "flow_log.log"
              {[ ("80", PyStr "tcp") := "web" ]} sample_world).2
           [("web", 2); ("Untagged", 1)]
           [(("80", PyStr "tcp"), 2); (("9999", PyStr "udp"), 1)]).
  vm_compute. reflexivity.
Defined.

(** X13. Of a 14-field line only the seventh and the eighth field are
    read: two such lines with the same destination port and the same protocol
    number do the same to any count maps in any world, whatever their other
    twelve fields are. *)
Theorem process_line_reads_two_fields
    (sv : list (string * pyobj)) (lt : lookup_table_t) (line1 line2 : string)
    (counts : tag_counts_t * port_protocol_counts_t) (w : world)
    (dstport protocol_number : string) :
  length (Py.split line1) = 14%nat → length (Py.split line2) = 14%nat →
  Py.split line1 !! 6%nat = Some dstport → Py.split line2 !! 6%nat = Some dstport →
  Py.split line1 !! 7%nat = Some protocol_number →
  Py.split line2 !! 7%nat = Some protocol_number →
  process_line sv lt line1 counts w = process_line sv lt line2 counts w.
Proof.
  intros L1 L2 A1 A2 B1 B2.
  by rewrite (process_line_exact _ _ _ _ _ _ _ L1 A1 B1),
             (process_line_exact _ _ _ _ _ _ _ L2 A2 B2).
Qed.

Lemma process_line_reads_two_fields_witness :
  process_line linux_socket_vars {[ ("80", PyStr "tcp") := "web" ]}
    "2 123456789012 eni-0a1b2c3d 10.0.1.201 198.51.100.2 443 80 6 25 20000 1620140761 1620140821 ACCEPT OK"
    ([], []) sample_world
  = process_line linux_socket_vars {[ ("80", PyStr "tcp") := "web" ]}
      "3 - - - - - 80 6 - - - - REJECT NODATA" ([], []) sample_world.
Proof.
  apply (process_line_reads_two_fields linux_socket_vars
           {[ ("80", PyStr "tcp") := "web" ]} _ _ ([], []) sample_world "80" "6");
    reflexivity.
Defined.

(** ** [write_output] *)

(** X14. A call of [write_output] that returns leaves in the output file a
    report that the two count maps determine: what the file held before is
    gone, no other file is touched, and two calls with the same maps that
    both return leave the same report, whatever else the two worlds hold. *)
Theorem write_output_report_from_counts
    (tc : tag_counts_t) (ppc : port_protocol_counts_t) (out : string)
    (w1 w1' w2 w2' : world) :
  write_output tc ppc out w1 = (Ok tt, w1') →
  write_output tc ppc out w2 = (Ok tt, w2') →
  ∃ report,
    files w1' = <[out := report]> (files w1)
    ∧ files w2' = <[out := report]> (files w2).
Proof.
  intros H1 H2.
  destruct (write_output_writes tc ppc out) as (r & report & H).
  destruct (H w1) as [_ Hf1], (H w2) as [_ Hf2].
  rewrite H1 in Hf1. rewrite H2 in Hf2. by exists report.
Qed.

Lemma write_output_report_from_counts_witness :
  ∃ report,
    files (write_output [("web", 2); ("Untagged", 1)]
             [(("80", PyStr "tcp"), 2); (("9999", PyStr "udp"), 1)]
             "output.txt" sample_world).2
    = <[ "output.txt" := report ]> (files sample_world)
    ∧ files (write_output [("web", 2); ("Untagged", 1)]
               [(("80", PyStr "tcp"), 2); (("9999", PyStr "udp"), 1)]
               "output.txt" sample_world_2).2
      = <[ "output.txt" := report ]> (files sample_world_2).
Proof.
  apply (write_output_report_from_counts [("web", 2); ("Untagged", 1)]
           [(("80", PyStr "tcp"), 2); (("9999", PyStr "udp"), 1)] "output.txt"
           sample_world _ sample_world_2 _).
  - vm_compute. reflexivity.
  - vm_compute. reflexivity.
Defined.

(** *** Ties keep their order *)

Section stability.
Context {A : Type} (lt : A → A → bool) (P : A → Prop) `{!∀ x, Decision (P x)}.

(** Elements of the class [P] are not smaller than one another. *)
Hypothesis same_class : ∀ x y, P x → P y → lt x y = false.

Lemma insert_sorted_filter x l :
  filter P (insert_sorted lt x l) = filter P (x :: l).
Proof.
  induction l as [|y l IH]; simpl; [done|].
  destruct (lt y x) eqn:Hyx; [|done].
  rewrite (filter_cons _ y), IH, !filter_cons.
  destruct (decide (P y)) as [Hy|Hy], (decide (P x)) as [Hx|Hx]; try done.
  by rewrite (same_class y x) in Hyx.
Qed.

Lemma insertion_filter l : filter P (foldr (insert_sorted lt) [] l) = filter P l.
Proof.
  induction l as [|x l IH]; simpl; [done|].
  by rewrite insert_sorted_filter, !filter_cons, IH.
Qed.
End stability.

Lemma filter_keyed {K A} `{EqDecision K} (key : A → K) (k : K) (ds : list (K * A)) :
  Forall (λ d, d.1 = key d.2) ds →
  filter (λ x, key x = k) ds.*2 = (filter (λ d, d.1 = k) ds).*2.
Proof.
  induction 1 as [|d ds Hd _ IH]; [done|]. csimpl.
  rewrite !filter_cons, IH, <-Hd. by destruct (decide (d.1 = k)).
Qed.

Lemma sorted_by_stable {K A} `{EqDecision K} (lt : K → K → bool) (key : A → K)
    (k : K) (keyed : list (K * A)) :
  lt k k = false →
  Forall (λ d, d.1 = key d.2) keyed →
  filter (λ x, key x = k) (sorted_by lt keyed) = filter (λ x, key x = k) keyed.*2.
Proof.
  intros Hirr Hk. unfold sorted_by.
  rewrite !(filter_keyed key k).
  - f_equal. apply (insertion_filter (λ a b, lt a.1 b.1) (λ d, d.1 = k)).
    intros x y -> ->. exact Hirr.
  - exact Hk.
  - by rewrite insertion_perm.
Qed.

Lemma filter_ext_Forall {A} (P Q : A → Prop)
    `{!∀ x, Decision (P x)} `{!∀ x, Decision (Q x)} (l : list A) :
  Forall (λ x, P x ↔ Q x) l → filter P l = filter Q l.
Proof.
  induction 1 as [|x l Hx _ IH]; [done|]. rewrite !filter_cons, IH.
  destruct (decide (P x)), (decide (Q x)); tauto || done.
Qed.

Lemma total_key_class (l : port_protocol_counts_t) (count port : Z) :
  Forall (λ x, is_Some (Py.int x.1.1)) l →
  filter (λ x, x.2 = count ∧ Py.int x.1.1 = Some port) l
  = filter (λ x, total_key x = (count, port)) l.
Proof.
  intros H. apply filter_ext_Forall. eapply Forall_impl; [exact H|].
  intros [[p v] c] [n Hn]. unfold total_key. simpl in *. rewrite Hn. simpl.
  split; [intros [-> [= ->]]; done|intros [= -> ->]; done].
Qed.

(** X15. Rows with equal sort keys keep the order of the count maps:
    whenever [write_output] returns, the tag rows with any given count are
    the items of [tag_counts] with that count, in their order there, and the
    port/protocol rows with any given count and port number are the items of
    [port_protocol_counts] with that count and port number, in their order
    there. Together with the sortedness of the rows this fixes the report. *)
Theorem write_output_ties_keep_order
    (tc : tag_counts_t) (ppc : port_protocol_counts_t) (out : string) (w w' : world) :
  write_output tc ppc out w = (Ok tt, w') →
  ∃ rows1 rows2,
    files w' !! out
    = Some (tag_header +:+ concat_str (tag_row <$> rows1)
            +:+ port_protocol_header +:+ concat_str (port_protocol_row <$> rows2))
    ∧ (∀ count, filter (λ x, x.2 = count) rows1 = filter (λ x, x.2 = count) tc)
    ∧ (∀ count port,
         filter (λ x, x.2 = count ∧ Py.int x.1.1 = Some port) rows2
         = filter (λ x, x.2 = count ∧ Py.int x.1.1 = Some port) ppc).
Proof.
  rewrite write_output_spec.
  destruct (keyed_items ppc) as [keyed|port] eqn:Hk; [|done]. intros [= <-].
  exists (sorted_by Z.ltb (map (λ x, (x.2, x)) tc)), (sorted_by pair_ltb keyed).
  split; [|split].
  - simpl. rewrite lookup_insert_eq. f_equal.
    unfold report_prefix. by rewrite !str_app_assoc.
  - intros count.
    rewrite (sorted_by_stable Z.ltb (λ x : string * Z, x.2) count).
    + by rewrite decorate_snd.
    + apply Z.ltb_irrefl.
    + apply Forall_forall. intros d (x & -> & _)%list_elem_of_fmap. done.
  - intros count port.
    destruct (keyed_items_inl ppc keyed Hk) as [Hsnd HF].
    assert (Forall (λ x, is_Some (Py.int x.1.1)) ppc) as Hints.
    { rewrite <-Hsnd. apply Forall_fmap. eapply Forall_impl; [exact HF|].
      intros d [_ Hd]. simpl. by rewrite Hd. }
    rewrite !total_key_class; [|exact Hints|by rewrite sorted_by_perm, Hsnd].
    rewrite (sorted_by_stable pair_ltb total_key (count, port)).
    + by rewrite Hsnd.
    + unfold pair_ltb. simpl. by rewrite !Z.ltb_irrefl, andb_false_r.
    + eapply Forall_impl; [exact HF|].
      intros [[c n] x] [H1 H2]. unfold total_key. simpl in *. by rewrite H2, H1.
Qed.

Lemma write_output_ties_keep_order_witness :
  ∃ rows1 rows2,
    files (write_output [("web", 2); ("mail", 1); ("Untagged", 2)]
             [(("80", PyStr "tcp"), 2); (("080", PyStr "udp"), 2); (("443", PyStr "tcp"), 1)]
             "output.txt" sample_world).2 !! "output.txt"
    = Some (tag_header +:+ concat_str (tag_row <$> rows1)
            +:+ port_protocol_header +:+ concat_str (port_protocol_row <$> rows2))
    ∧ (∀ count, filter (λ x, x.2 = count) rows1
                = filter (λ x, x.2 = count) [("web", 2); ("mail", 1); ("Untagged", 2)])
    ∧ (∀ count port,
         filter (λ x, x.2 = count ∧ Py.int x.1.1 = Some port) rows2
         = filter (λ x, x.2 = count ∧ Py.int x.1.1 = Some port)
             [(("80", PyStr "tcp"), 2); (("080", PyStr "udp"), 2); (("443", PyStr "tcp"), 1)]).
Proof.
  apply (write_output_ties_keep_order _ _ "output.txt" sample_world).
  vm_compute. reflexivity.
Defined.

Example ties_in_the_report :
  files (write_output [("web", 2); ("mail", 1); ("Untagged", 2)]
           [(("80", PyStr "tcp"), 2); (("080", PyStr "udp"), 2); (("443", PyStr "tcp"), 1)]
           "output.txt" sample_world).2 !! "output.txt"
  = Some (lines_text ["Tag Counts:"; "Tag,Count"; "mail,1"; "web,2"; "Untagged,2"; "";
                      "Port/Protocol Combination Counts:"; "Port,Protocol,Count";
                      "443,tcp,1"; "80,tcp,2"; "080,udp,2"]).
Proof. vm_compute. reflexivity. Qed.

(** ** The driver, stage by stage *)

Lemma log_parser_stages sv csv_reader lf ff out w :
  log_parser sv csv_reader lf ff out w =
  match load_lookup_table csv_reader lf w with
  | (Raise e, w1) => handled e w1
  | (Ok lookup_table, w1) =>
      match process_flow_logs sv ff lookup_table w1 with
      | (Raise e, w2) => handled e w2
      | (Ok counts, w2) =>
          match write_output counts.1 counts.2 out w2 with
          | (Raise e, w3) => handled e w3
          | (Ok u, w3) => (Ok u, w3)
          end
      end
  end.
Proof.
  unfold log_parser, log_parser_with, try_except, mbind, M_bind, handled.
  destruct (load_lookup_table csv_reader lf w) as [[lt|e] w1]; [|done].
  destruct (process_flow_logs sv ff lt w1) as [[counts|e] w2]; [|done].
  by destruct (write_output counts.1 counts.2 out w2) as [[u|e] w3].
Qed.

Lemma handled_spec e w :
  ∃ msg, handled e w = (Ok tt, World (files w) (log w ++ [(ERROR, msg)])).
Proof.
  unfold handled. destruct (driver_handler_catches e) as [msg ->]. by exists msg.
Qed.

(** X16. When the lookup table cannot be loaded, the run stops there: the
    flow log is not read, no file is created or changed, the driver returns
    normally, and the process log gets the same error twice, once from the
    loader and once from the driver. *)
Theorem log_parser_lookup_failure
    (sv : list (string * pyobj)) (csv_reader : string → list (list string))
    (lf ff out : string) (w : world) :
  (files w !! lf = None →
   log_parser sv csv_reader lf ff out w
   = (Ok tt, World (files w)
               (log w ++ [(ERROR, lookup_not_found lf); (ERROR, lookup_not_found lf)])))
  ∧ (∀ text, files w !! lf = Some text →
       csv_reader text = [] ∨ head (csv_reader text) = Some [] →
       log_parser sv csv_reader lf ff out w
       = (Ok tt, World (files w)
                   (log w ++ [(ERROR, lookup_bad_format lf);
                              (ERROR, lookup_bad_format lf)]))).
Proof.
  rewrite log_parser_stages, load_lookup_table_spec. split.
  - intros ->. unfold handled. simpl. unfold logging. simpl. by rewrite <-app_assoc.
  - intros text -> Hc.
    destruct (csv_reader text) as [|[|h header] rows]; simpl in Hc.
    + unfold handled. simpl. unfold logging. simpl. by rewrite <-app_assoc.
    + unfold handled. simpl. unfold logging. simpl. by rewrite <-app_assoc.
    + by destruct Hc.
Qed.

Lemma log_parser_lookup_failure_witness :
  log_parser linux_socket_vars plain_csv_reader "missing.csv" "flow_log.log"
    "output.txt" sample_world
  = (Ok tt, World (files sample_world)
              (log sample_world ++ [(ERROR, lookup_not_found "missing.csv");
                                    (ERROR, lookup_not_found "missing.csv")]))
  ∧ log_parser linux_socket_vars plain_csv_reader "empty.csv" "flow_log.log"
      "output.txt" empty_lookup_world
    = (Ok tt, World (files empty_lookup_world)
                (log empty_lookup_world ++ [(ERROR, lookup_bad_format "empty.csv");
                                            (ERROR, lookup_bad_format "empty.csv")])).
Proof.
  split.
  - apply (proj1 (log_parser_lookup_failure linux_socket_vars plain_csv_reader
                    "missing.csv" "flow_log.log" "output.txt" sample_world)).
    reflexivity.
  - apply (proj2 (log_parser_lookup_failure linux_socket_vars plain_csv_reader
                    "empty.csv" "flow_log.log" "output.txt" empty_lookup_world) "").
    + reflexivity.
    + left. reflexivity.
Defined.

(** The two conditions under which the stages before the writer return. *)
Lemma load_ok_iff csv_reader lf w :
  lookup_loadable csv_reader lf w
  ↔ ∃ lt w1, load_lookup_table csv_reader lf w = (Ok lt, w1) ∧ files w1 = files w.
Proof.
  unfold lookup_loadable. rewrite load_lookup_table_spec. split.
  - intros (text & h & header & rows & -> & ->). eauto.
  - destruct (files w !! lf) as [text|]; [|by intros (?&?&?&?)].
    destruct (csv_reader text) as [|[|h header] rows] eqn:Hc;
      try (by intros (?&?&?&?)).
    intros _. exists text, h, header, rows. done.
Qed.

Lemma process_ok_iff (sv : list (string * pyobj)) (ff : string)
    (lt : lookup_table_t) (w : world) :
  flow_log_readable ff w
  ↔ ∃ counts w2, process_flow_logs sv ff lt w = (Ok counts, w2) ∧ files w2 = files w.
Proof.
  unfold flow_log_readable. split.
  - intros (text & Hf & Hall).
    destruct (process_flow_logs_fold sv ff lt w text Hf Hall) as (w' & Hr & Hw).
    eauto.
  - intros (counts & w2 & Hr & _).
    apply (proj1 (proj2 (proj2 (process_flow_logs_trichotomy sv ff lt w)))).
    exists counts. by rewrite Hr.
Qed.

Lemma log_parser_files_cases
    (sv : list (string * pyobj)) (csv_reader : string → list (list string))
    (lf ff out : string) (w : world) :
  files (log_parser sv csv_reader lf ff out w).2 = files w
  ∨ (lookup_loadable csv_reader lf w ∧ flow_log_readable ff w).
Proof.
  rewrite log_parser_stages.
  destruct (load_lookup_table csv_reader lf w) as [[lt|e] w1] eqn:Hl.
  - assert (files w1 = files w) as Hw1.
    { pose proof (load_lookup_table_reads csv_reader lf w w eq_refl) as (_ & H & _).
      by rewrite Hl in H. }
    pose proof (proj2 (proj2 (proj2 (process_flow_logs_trichotomy sv ff lt w1)))) as Hw2.
    destruct (process_flow_logs sv ff lt w1) as [[counts|e] w2] eqn:Hp.
    + right. split.
      * apply load_ok_iff. eauto.
      * assert (flow_log_readable ff w1) as H1.
        { apply (process_ok_iff sv ff lt). exists counts, w2. by rewrite Hp. }
        unfold flow_log_readable in *. by rewrite <-Hw1.
    + left. destruct (handled_spec e w2) as [msg ->]. simpl in *. congruence.
  - left. destruct (handled_spec e w1) as [msg ->]. simpl.
    pose proof (load_lookup_table_reads csv_reader lf w w eq_refl) as (_ & H & _).
    by rewrite Hl in H.
Qed.

(** X17. The driver writes nothing unless both inputs were read. If the
    lookup file is missing or its first row is missing or empty, or if the
    flow log is missing or has a line of more than 14 fields, the run changes
    no file at all; so whenever a run changes a file, the lookup file exists
    with a non-empty first row and the flow log exists with no line of more
    than 14 fields. *)
Theorem log_parser_writes_only_after_reading
    (sv : list (string * pyobj)) (csv_reader : string → list (list string))
    (lf ff out : string) (w : world) :
  (¬ (lookup_loadable csv_reader lf w ∧ flow_log_readable ff w) →
   files (log_parser sv csv_reader lf ff out w).2 = files w)
  ∧ (files (log_parser sv csv_reader lf ff out w).2 ≠ files w →
     lookup_loadable csv_reader lf w ∧ flow_log_readable ff w).
Proof.
  destruct (log_parser_files_cases sv csv_reader lf ff out w) as [H|H].
  - split; [done|]. intros Hne. by destruct Hne.
  - split; [|done]. intros Hnot. by destruct Hnot.
Qed.

Lemma log_parser_writes_only_after_reading_witness :
  files (log_parser linux_socket_vars plain_csv_reader
           "lookup_table.csv" "flow_log.log" "output.txt" long_line_world).2
  = files long_line_world
  ∧ lookup_loadable plain_csv_reader "lookup_table.csv" sample_world
  ∧ flow_log_readable "flow_log.log" sample_world.
Proof.
  split.
  - apply (proj1 (log_parser_writes_only_after_reading linux_socket_vars
                    plain_csv_reader "lookup_table.csv" "flow_log.log" "output.txt"
                    long_line_world)).
    intros [(text & h & header & rows & Hf & _) _]. vm_compute in Hf. discriminate Hf.
  - apply (proj2 (log_parser_writes_only_after_reading linux_socket_vars
                    plain_csv_reader "lookup_table.csv" "flow_log.log" "output.txt"
                    sample_world)).
    intros H. apply (f_equal (λ m, m !! "output.txt")) in H.
    vm_compute in H. discriminate H.
Defined.

(** X18. The last record of the process log tells how the run ended: it is
    the INFO record of the writer when all three stages returned, and an
    ERROR record in every other case. The driver itself returns normally
    either way. *)
Theorem log_parser_last_record
    (sv : list (string * pyobj)) (csv_reader : string → list (list string))
    (lf ff out : string) (w : world) :
  ((∃ lt w1 counts w2 w3,
      load_lookup_table csv_reader lf w = (Ok lt, w1)
      ∧ process_flow_logs sv ff lt w1 = (Ok counts, w2)
      ∧ write_output counts.1 counts.2 out w2 = (Ok tt, w3)) →
   last (log (log_parser sv csv_reader lf ff out w).2)
   = Some (INFO, "Output successfully written to '" +:+ out +:+ "'."))
  ∧ (¬ (∃ lt w1 counts w2 w3,
          load_lookup_table csv_reader lf w = (Ok lt, w1)
          ∧ process_flow_logs sv ff lt w1 = (Ok counts, w2)
          ∧ write_output counts.1 counts.2 out w2 = (Ok tt, w3)) →
     ∃ msg, last (log (log_parser sv csv_reader lf ff out w).2) = Some (ERROR, msg)).
Proof.
  rewrite log_parser_stages. split.
  - intros (lt & w1 & counts & w2 & w3 & -> & -> & Hw). rewrite Hw.
    rewrite write_output_spec in Hw.
    destruct (keyed_items counts.2); [|done]. injection Hw as <-. simpl.
    apply last_snoc.
  - intros Hnot.
    destruct (load_lookup_table csv_reader lf w) as [[lt|e] w1] eqn:Hl.
    + destruct (process_flow_logs sv ff lt w1) as [[counts|e] w2] eqn:Hp.
      * destruct (write_output counts.1 counts.2 out w2) as [[[]|e] w3] eqn:Hw.
        -- exfalso. apply Hnot. by exists lt, w1, counts, w2, w3.
        -- destruct (handled_spec e w3) as [msg ->]. exists msg. apply last_snoc.
      * destruct (handled_spec e w2) as [msg ->]. exists msg. apply last_snoc.
    + destruct (handled_spec e w1) as [msg ->]. exists msg. apply last_snoc.
Qed.

Lemma log_parser_last_record_witness :
  last (log (log_parser linux_socket_vars plain_csv_reader
               "lookup_table.csv" "flow_log.log" "output.txt" sample_world).2)
  = Some (INFO, "Output successfully written to '" +:+ "output.txt" +:+ "'.")
  ∧ ∃ msg, last (log (log_parser linux_socket_vars plain_csv_reader
                        "lookup_table.csv" "flow_log.log" "output.txt"
                        long_line_world).2) = Some (ERROR, msg).
Proof.
  split.
  - apply (proj1 (log_parser_last_record linux_socket_vars plain_csv_reader
                    "lookup_table.csv" "flow_log.log" "output.txt" sample_world)).
    exists {[ ("80", PyStr "tcp") := "www"; ("25", PyStr "tcp") := "mail" ]},
      (load_lookup_table plain_csv_reader "lookup_table.csv" sample_world).2,
      ([("www", 2); ("Untagged", 1)],
       [(("80", PyStr "tcp"), 2); (("9999", PyStr "udp"), 1)]),
      (process_flow_logs linux_socket_vars "flow_log.log"
         {[ ("80", PyStr "tcp") := "www"; ("25", PyStr "tcp") := "mail" ]}
         (load_lookup_table plain_csv_reader "lookup_table.csv" sample_world).2).2,
      (main linux_socket_vars plain_csv_reader sample_world).2.
    split; [|split]; vm_compute; reflexivity.
  - apply (proj2 (log_parser_last_record linux_socket_vars plain_csv_reader
                    "lookup_table.csv" "flow_log.log" "output.txt" long_line_world)).
    intros (lt & w1 & _ & _ & _ & Hl & _). vm_compute in Hl. discriminate Hl.
Defined.

Lemma bad_port_in_counts (sv : list (string * pyobj)) (lt : lookup_table_t) (lines : list string)
    (line port protocol_number : string) :
  line ∈ lines →
  length (Py.split line) = 14%nat →
  Py.split line !! 6%nat = Some port →
  Py.split line !! 7%nat = Some protocol_number →
  Py.int port = None →
  ∃ p, keyed_items (foldl (count_line sv lt) ([], []) lines).2 = inr p.
Proof.
  intros Hin Hlen H6 H7 Hint. apply keyed_items_bad.
  assert ((port, resolve sv protocol_number)
            ∈ (foldl (count_line sv lt) ([], []) lines).2.*1) as Hkey.
  { apply foldl_count_line_keys. right. exists line. split; [done|].
    by apply line_key_exact. }
  apply list_elem_of_fmap in Hkey as ([k c] & Hk & Hx). simpl in Hk. subst k.
  apply Exists_exists. eexists. split; [exact Hx|done].
Qed.

(** X19. One counted record whose destination port is no integer literal
    (a flow log writes ["-"] there for records without data) costs the report
    its whole second section: when both inputs can be read and some 14-field
    line has such a port, the output file is left with the complete tag
    section and the two header lines of the port/protocol section, without
    any port/protocol row, and the driver still returns normally. *)
Theorem log_parser_bad_port_truncates_report
    (sv : list (string * pyobj)) (csv_reader : string → list (list string))
    (lf ff out : string) (w : world) (ltext h : string) (header : list string)
    (rows : list (list string)) (text line port protocol_number : string) :
  files w !! lf = Some ltext →
  csv_reader ltext = (h :: header) :: rows →
  files w !! ff = Some text →
  Forall (λ line, length (Py.split line) ≤ 14)%nat (Py.file_lines text) →
  line ∈ Py.file_lines text →
  length (Py.split line) = 14%nat →
  Py.split line !! 6%nat = Some port →
  Py.split line !! 7%nat = Some protocol_number →
  Py.int port = None →
  ∃ (tag_counts : tag_counts_t) w',
    log_parser sv csv_reader lf ff out w = (Ok tt, w')
    ∧ files w' = <[out := report_prefix tag_counts]> (files w)
    ∧ ∀ tag, dict_count tag tag_counts
             = lines_with_tag sv (foldl store_row ∅ rows) tag (Py.file_lines text).
Proof.
  intros Hlf Hcsv Hff Hall Hin Hlen H6 H7 Hint.
  rewrite log_parser_stages, load_lookup_table_spec, Hlf, Hcsv. simpl.
  set (w1 := World _ _). set (lt := lookup_of_rows rows).
  destruct (process_flow_logs_fold sv ff lt w1 text Hff Hall) as (w2 & -> & Hw2).
  destruct (bad_port_in_counts sv lt _ _ _ _ Hin Hlen H6 H7 Hint) as [p Hp].
  rewrite write_output_spec, Hp.
  destruct (handled_spec (int_error p)
              (World (<[out := report_prefix
                          (foldl (count_line sv lt) ([], []) (Py.file_lines text)).1]>
                        (files w2))
                 (log w2 ++ [(ERROR, "Error writing to output file '" +:+ out
                    +:+ "': " +:+ exn_msg (int_error p))]))) as [msg ->].
  do 2 eexists. split; [reflexivity|]. simpl. split; [by rewrite Hw2|].
  intros tag.
  destruct (foldl_count_line_counts sv lt (Py.file_lines text) ([], [])) as [_ H].
  rewrite H. simpl. unfold lt, lookup_of_rows. lia.
Qed.

Lemma log_parser_bad_port_truncates_report_witness :
  ∃ (tag_counts : tag_counts_t) w',
    log_parser linux_socket_vars plain_csv_reader
      "lookup_table.csv" "flow_log.log" "output.txt" no_data_world = (Ok tt, w')
    ∧ files w' = <[ "output.txt" := report_prefix tag_counts ]> (files no_data_world)
    ∧ ∀ tag, dict_count tag tag_counts
             = lines_with_tag linux_socket_vars
                 (foldl store_row ∅
                    [["80"; "tcp"; "web"]; ["25"; " TCP "; "mail"]; ["80"; "TCP"; "www"]])
                 tag (Py.file_lines no_data_flow).
Proof.
  apply (log_parser_bad_port_truncates_report linux_socket_vars plain_csv_reader
           "lookup_table.csv" "flow_log.log" "output.txt" no_data_world
           sample_lookup "dstport" ["protocol"; "tag"]
           [["80"; "tcp"; "web"]; ["25"; " TCP "; "mail"]; ["80"; "TCP"; "www"]]
           no_data_flow
           "2 123456789012 eni-0a1b2c3d - - - - - - - 1620140761 1620140821 - NODATA"
           "-" "-").
  - reflexivity.
  - reflexivity.
  - reflexivity.
  - lines_at_most_14.
  - vm_compute. apply list_elem_of_further, list_elem_of_here.
  - reflexivity.
  - reflexivity.
  - reflexivity.
  - reflexivity.
Defined.

Example no_data_report :
  files (log_parser linux_socket_vars plain_csv_reader
           "lookup_table.csv" "flow_log.log" "output.txt" no_data_world).2 !! "output.txt"
  = Some (lines_text ["Tag Counts:"; "Tag,Count"; "www,1"; "Untagged,1"; "";
                      "Port/Protocol Combination Counts:"; "Port,Protocol,Count"]).
Proof. vm_compute. reflexivity. Qed.

Lemma foldl_count_line_none (sv : list (string * pyobj)) (lt : lookup_table_t) (lines : list string)
    (counts : tag_counts_t * port_protocol_counts_t) :
  Forall (λ line, length (Py.split line) < 14)%nat lines →
  foldl (count_line sv lt) counts lines = counts.
Proof.
  induction 1 as [|line lines Hl _ IH]; simpl; [done|].
  unfold count_line at 2. by rewrite line_key_short.
Qed.

(** X20. When both inputs can be read but no line of the flow log has 14
    fields (an empty log, or only shorter lines), the run succeeds and the
    report consists of the two section headers alone. *)
Theorem log_parser_nothing_counted
    (sv : list (string * pyobj)) (csv_reader : string → list (list string))
    (lf ff out : string) (w : world) (text : string) :
  lookup_loadable csv_reader lf w →
  files w !! ff = Some text →
  Forall (λ line, length (Py.split line) < 14)%nat (Py.file_lines text) →
  ∃ w', log_parser sv csv_reader lf ff out w = (Ok tt, w')
        ∧ files w' = <[out := tag_header +:+ port_protocol_header]> (files w)
        ∧ last (log w')
          = Some (INFO, "Output successfully written to '" +:+ out +:+ "'.").
Proof.
  intros (ltext & h & header & rows & Hlf & Hcsv) Hff Hshort.
  rewrite log_parser_stages, load_lookup_table_spec, Hlf, Hcsv. simpl.
  set (w1 := World _ _). set (lt := lookup_of_rows rows).
  assert (Forall (λ line, length (Py.split line) ≤ 14)%nat (Py.file_lines text))
    as Hall by (eapply Forall_impl; [exact Hshort|]; simpl; lia).
  destruct (process_flow_logs_fold sv ff lt w1 text Hff Hall) as (w2 & -> & Hw2).
  rewrite foldl_count_line_none by done. rewrite write_output_spec. simpl.
  eexists. split; [reflexivity|]. simpl. split; [|apply last_snoc].
  rewrite Hw2. unfold report_prefix. simpl.
  by rewrite !str_app_nil_r.
Qed.

Lemma log_parser_nothing_counted_witness :
  ∃ w', log_parser linux_socket_vars plain_csv_reader
          "lookup_table.csv" "flow_log.log" "output.txt" short_lines_world = (Ok tt, w')
        ∧ files w' = <[ "output.txt" := tag_header +:+ port_protocol_header ]>
                       (files short_lines_world)
        ∧ last (log w')
          = Some (INFO, "Output successfully written to '" +:+ "output.txt" +:+ "'.").
Proof.
  apply (log_parser_nothing_counted linux_socket_vars plain_csv_reader
           "lookup_table.csv" "flow_log.log" "output.txt" short_lines_world
           (lines_text ["short line"; ""; "1 2 3 4 5 6 7 8 9 10 11 12 13"])).
  - exists sample_lookup, "dstport", ["protocol"; "tag"],
      [["80"; "tcp"; "web"]; ["25"; " TCP "; "mail"]; ["80"; "TCP"; "www"]].
    split; reflexivity.
  - reflexivity.
  - lines_at_most_14.
Defined.

Lemma load_lookup_table_no_None (csv_reader : string → list (list string))
    (lf : string) (w : world) (lt : lookup_table_t) (w1 : world) (port : string) :
  load_lookup_table csv_reader lf w = (Ok lt, w1) → lt !! (port, PyNone) = None.
Proof.
  rewrite load_lookup_table_spec.
  destruct (files w !! lf) as [text|]; [|done].
  destruct (csv_reader text) as [|[|h header] rows]; try done.
  intros [= <- _].
  destruct (lookup_of_rows rows !! (port, PyNone)) as [tag|] eqn:Hl; [|done].
  assert (normal_entry (port, PyNone) tag) as (_ & _ & p & Hp & _); [|done].
  eapply foldl_store_row_normal; [|exact Hl]. intros ??. by rewrite lookup_empty.
Qed.

(** X21. A record whose protocol number resolves to [None] (a number in no
    [IPPROTO_] item) is always counted as ["Untagged"], whatever the lookup
    file says, because the loader stores string protocols only; and its
    port/protocol row in the report reads [None] for the protocol. *)
Theorem unresolved_protocol_is_untagged
    (sv : list (string * pyobj)) (csv_reader : string → list (list string))
    (lf : string) (w w1 : world) (lt : lookup_table_t)
    (line port protocol_number : string)
    (counts : tag_counts_t * port_protocol_counts_t) (w0 : world) :
  load_lookup_table csv_reader lf w = (Ok lt, w1) →
  length (Py.split line) = 14%nat →
  Py.split line !! 6%nat = Some port →
  Py.split line !! 7%nat = Some protocol_number →
  get_protocol_name sv protocol_number w0 = (Ok PyNone, w0) →
  process_line sv lt line counts w0
  = (Ok (dict_incr "Untagged" counts.1, dict_incr (port, PyNone) counts.2), w0)
  ∧ ∀ n, port_protocol_row ((port, PyNone), n)
         = port +:+ "," +:+ "None" +:+ "," +:+ pretty n +:+ Py.NL.
Proof.
  intros Hl Hlen H6 H7 Hg. split; [|done].
  rewrite (process_line_exact _ _ _ _ _ _ _ Hlen H6 H7).
  rewrite (bind_Ok _ _ _ _ _ Hg).
  by rewrite (load_lookup_table_no_None _ _ _ _ _ port Hl).
Qed.

Lemma unresolved_protocol_is_untagged_witness :
  process_line linux_socket_vars
    {[ ("80", PyStr "tcp") := "www"; ("25", PyStr "tcp") := "mail" ]}
    "2 123456789012 eni-0a1b2c3d 10.0.1.201 198.51.100.2 443 80 999 25 20000 1620140761 1620140821 ACCEPT OK"
    ([("web", 2)], [(("80", PyStr "tcp"), 2)]) sample_world
  = (Ok (dict_incr "Untagged" ([("web", 2)], [(("80", PyStr "tcp"), 2)]).1, dict_incr ("80", PyNone) ([("web", 2)], [(("80", PyStr "tcp"), 2)]).2),
     sample_world)
  ∧ ∀ n, port_protocol_row (("80", PyNone), n)
         = "80" +:+ "," +:+ "None" +:+ "," +:+ pretty n +:+ Py.NL.
Proof.
  apply (unresolved_protocol_is_untagged linux_socket_vars plain_csv_reader
           "lookup_table.csv" sample_world
           (load_lookup_table plain_csv_reader "lookup_table.csv" sample_world).2
           {[ ("80", PyStr "tcp") := "www"; ("25", PyStr "tcp") := "mail" ]}
           _ "80" "999" ([("web", 2)], [(("80", PyStr "tcp"), 2)]) sample_world).
  - vm_compute. reflexivity.
  - reflexivity.
  - reflexivity.
  - reflexivity.
  - reflexivity.
Defined.
